(** * BMS-RL: the battery environment of [Environments/Environment_BMS.py]

    A shallow embedding of [BMSEnvironment] (its constructor parameters,
    [reset], [step] and the private helpers [step] calls) together with the
    properties of the state-transition engine.

    Modelling conventions.
    - Python and numpy floats are exact rationals ([Q]): the properties
      stated on them are about requests and attributes that are numbers.
      The rounding of the arithmetic, the [float32] cast of the observation
      (and of the bounds of the observation space) and infinities are
      outside the model.  Division is only ever by [battery_capacity] and
      by literal constants; a zero capacity (an exception or a non-finite
      float in Python) is outside the model too, and the properties that
      divide assume the capacity is not zero.
    - The bounds [_get_action_check] clips against are those of the action
      space, the [float32] casts of [a_min] and [a_max]; the cast is the
      numpy primitive [np_float32].
    - The rationals have no NaN.  The module [binary64] replays the SoC
      path of [step] on binary64 floats, to settle what a NaN request
      does.
    - [self] is a record of the mutable attributes; the keyword arguments of
      [__init__] are the immutable record [Config].
    - Methods live in a small state-and-exception monad: a Python exception
      leaves the attributes as they were at the point of the raise.
    - [np.sin], [np.cos], [np.pi] and [np.float32] are primitives of numpy,
      not of this repository; they are the fields of the class [Numpy].
    - [print] output and gymnasium's seeding in [super().reset] do not touch
      the attributes modelled here and are left out. *)

From Stdlib Require Import ZArith QArith Qabs Qminmax Qround Qpower List String Bool
  Lia Lqa Floats.
Import ListNotations.

Open Scope Q_scope.

(** ** Numeric primitives *)

(** Strict comparison of two floats, as a boolean. *)
Definition Qltb (x y : Q) : bool := negb (Qle_bool y x).

(** Python's builtin [min(a, b)]: the first minimal argument. *)
Definition py_min (a b : Q) : Q := if Qltb b a then b else a.

(** Python's builtin [max(a, b)]: the first maximal argument. *)
Definition py_max (a b : Q) : Q := if Qltb a b then b else a.

(** [np.clip(x, lo, hi)] is [np.minimum(np.maximum(x, lo), hi)]. *)
Definition np_clip (x lo hi : Q) : Q := Qmin (Qmax x lo) hi.

(** The numpy primitives used by the time encoding and the synthetic
    generation and load profiles, and the cast [np.float32(x)] (what
    [np.array([x], dtype=np.float32)] stores), read back as a number. *)
Class Numpy : Type := {
  np_sin : Q -> Q;
  np_cos : Q -> Q;
  np_pi : Q;
  np_float32 : Q -> Q
}.

(** ** [datetime.datetime] and [datetime.timedelta(hours=...)] *)

Module datetime.

  (** A naive timestamp: the proleptic Gregorian ordinal of the date (day 1
      is 0001-01-01, a Monday) and the time of day. *)
Record t : Type := mk {
    toordinal : Z;
    hour : Z;
    minute : Z;
    second : Z;
    microsecond : Z
  }.

  (** [d.weekday()], Monday is 0 and Sunday is 6. *)
Definition weekday (d : t) : Z := (toordinal d + 6) mod 7.

  (** [d.replace(hour=0, minute=0, second=0, microsecond=0)]. *)
Definition replace_midnight (d : t) : t :=
    mk (toordinal d) 0 0 0 0.

  (** [d + datetime.timedelta(hours=h)]; the hours carry into the date.
      (The [OverflowError] past year 9999 is not modelled.) *)
Definition add_hours (d : t) (h : Z) : t :=
    mk (toordinal d + (hour d + h) / 24) ((hour d + h) mod 24)
       (minute d) (second d) (microsecond d).

  (** Minutes elapsed since 0001-01-01 00:00, to measure clock advances. *)
Definition minutes (d : t) : Z :=
    ((toordinal d - 1) * 24 + hour d) * 60 + minute d.

  (** The fields of a timestamp that Python can build. *)
Definition wf (d : t) : Prop :=
    (0 <= hour d < 24)%Z /\ (0 <= minute d < 60)%Z.

End datetime.

(** ** Configuration: the keyword arguments of [__init__] *)

Record Config : Type := {
  initial_SoC : Q;
  SoC_min : Q;
  SoC_max : Q;
  Load_min : Q;
  Load_max : Q;
  Generation_min : Q;
  Generation_max : Q;
  Price_min : Q;
  Price_mid : Q;
  Price_max : Q;
  a_min : Q;
  a_max : Q;
  max_steps : Z;
  miu_p : Q;
  lamda_p : Q;
  eta : Q;
  battery_capacity : Q;
  time_interval : Q
}.

(** The defaults of [kwargs.get]. *)
Definition default_config : Config := {|
  initial_SoC := 0.5;
  SoC_min := 0.1;
  SoC_max := 0.95;
  Load_min := 0;
  Load_max := 1;
  Generation_min := 0;
  Generation_max := 1;
  Price_min := 0.1;
  Price_mid := 0.2;
  Price_max := 0.3;
  a_min := -1;
  a_max := 1;
  max_steps := 24;
  miu_p := 10;
  lamda_p := 10;
  eta := 0.9;
  battery_capacity := 10;
  time_interval := 1
|}.

(** [action_space.low[0]] and [action_space.high[0]]: the space is built
    by [spaces.Box(low=np.array([a_min], dtype=np.float32),
    high=np.array([a_max], dtype=np.float32), dtype=np.float32)], so its
    bounds are the [float32] casts of [a_min] and [a_max]. *)
Definition action_space_low {NP : Numpy} (cfg : Config) : Q :=
  np_float32 (a_min cfg).
Definition action_space_high {NP : Numpy} (cfg : Config) : Q :=
  np_float32 (a_max cfg).

(** ** The mutable attributes of [self] *)

Record BMSEnvironment : Type := mkEnv {
  L : option Q;
  G : option Q;
  SoC : option Q;
  time : option datetime.t;
  current_step : Z
}.

(** The attributes after [__init__]. *)
Definition __init__ : BMSEnvironment := mkEnv None None None None 0.

Definition set_L (v : Q) (self : BMSEnvironment) : BMSEnvironment :=
  mkEnv (Some v) (G self) (SoC self) (time self) (current_step self).
Definition set_G (v : Q) (self : BMSEnvironment) : BMSEnvironment :=
  mkEnv (L self) (Some v) (SoC self) (time self) (current_step self).
Definition set_SoC (v : Q) (self : BMSEnvironment) : BMSEnvironment :=
  mkEnv (L self) (G self) (Some v) (time self) (current_step self).
Definition set_time (v : datetime.t) (self : BMSEnvironment) : BMSEnvironment :=
  mkEnv (L self) (G self) (SoC self) (Some v) (current_step self).
Definition set_current_step (v : Z) (self : BMSEnvironment) : BMSEnvironment :=
  mkEnv (L self) (G self) (SoC self) (time self) v.

(** ** The [info] dictionary *)

(** An entry of [info['Violations_SoC']] or [info['violations_action']]. *)
Record Violation : Type := mkViolation {
  type : string;
  value : Q;
  corrected_to : Q
}.

Record Info : Type := mkInfo {
  info_SoC : option Q;
  info_Load : option Q;
  info_Generation : option Q;
  Violations_SoC : list Violation;
  violations_action : list Violation;
  penalty_SoC : list Q;
  penalty_action : list Q
}.

(** The five-tuple returned by [step]. *)
Record StepResult : Type := mkStepResult {
  observation : list Q;
  reward : Q;
  terminated : bool;
  truncated : bool;
  info : Info
}.

(** ** Exceptions and the method monad *)

Inductive exn : Type :=
| TypeError        (* arithmetic on, or a float array from, an unset attribute *)
| AttributeError   (* [self.time.hour] while [self.time] is [None] *)
| IndexError.      (* [action[0]] on an empty array *)

Definition M (A : Type) : Type :=
  BMSEnvironment -> (exn + A) * BMSEnvironment.

Definition ret {A : Type} (a : A) : M A := fun self => (inr a, self).

Definition raise {A : Type} (e : exn) : M A := fun self => (inl e, self).

Definition bind {A B : Type} (m : M A) (k : A -> M B) : M B :=
  fun self =>
    match m self with
    | (inl e, self') => (inl e, self')
    | (inr a, self') => k a self'
    end.

Definition get : M BMSEnvironment := fun self => (inr self, self).

Definition modify (f : BMSEnvironment -> BMSEnvironment) : M unit :=
  fun self => (inr tt, f self).

Notation "x <- m ;; k" := (bind m (fun x => k))
  (at level 61, m at next level, right associativity).
Notation "' pat <- m ;; k" := (bind m (fun x => match x with pat => k end))
  (at level 61, pat pattern, m at next level, right associativity).
Notation "m ;;; k" := (bind m (fun _ => k))
  (at level 61, right associativity).

(** Reading a float attribute for arithmetic: [None] raises [TypeError]. *)
Definition num (attr : BMSEnvironment -> option Q) : M Q :=
  fun self =>
    match attr self with
    | Some v => (inr v, self)
    | None => (inl TypeError, self)
    end.

(** Reading [self.time] to access a field: [None] raises [AttributeError]. *)
Definition the_time : M datetime.t :=
  fun self =>
    match time self with
    | Some d => (inr d, self)
    | None => (inl AttributeError, self)
    end.

(** [action[0]]. *)
Definition index0 (action : list Q) : M Q :=
  match action with
  | a :: _ => ret a
  | [] => raise IndexError
  end.

(** ** The methods of [BMSEnvironment] *)

Section Methods.

Context {NP : Numpy}.
Variable cfg : Config.

Definition _get_info : M Info :=
    self <- get ;;
    ret (mkInfo (SoC self) (L self) (G self) [] [] [] []).

  (** [hour = self.time.hour + self.time.minute / 60.0] *)
Definition hour_of_day (d : datetime.t) : Q :=
    inject_Z (datetime.hour d) + inject_Z (datetime.minute d) / 60.

Definition _get_obs : M (list Q) :=
    d <- the_time ;;
    let hour := hour_of_day d in
    let day_of_week := inject_Z (datetime.weekday d) in
    let hour_sin := np_sin (2 * np_pi * hour / 24) in
    let hour_cos := np_cos (2 * np_pi * hour / 24) in
    let day_sin := np_sin (2 * np_pi * day_of_week / 7) in
    let day_cos := np_cos (2 * np_pi * day_of_week / 7) in
    soc <- num SoC ;;
    l <- num L ;;
    g <- num G ;;
    ret [soc; l; g; hour_sin; hour_cos; day_sin; day_cos].

Definition _get_SoC (action : Q) (info : Info) : M (Q * Q * Info) :=
    soc <- num SoC ;;
    let SoC_proposed :=
      soc + eta cfg * (action * time_interval cfg) / battery_capacity cfg in
    let violated :=
      Qltb SoC_proposed (SoC_min cfg) || Qltb (SoC_max cfg) SoC_proposed in
    let info :=
      if violated then
        mkInfo (info_SoC info) (info_Load info) (info_Generation info)
          (Violations_SoC info ++
             [mkViolation "SoC Violation" SoC_proposed
                (np_clip SoC_proposed (SoC_min cfg) (SoC_max cfg))])
          (violations_action info) (penalty_SoC info) (penalty_action info)
      else info in
    let SoC_adjusted :=
      if violated then np_clip SoC_proposed (SoC_min cfg) (SoC_max cfg)
      else SoC_proposed in
    let delta_SoC := Qabs (SoC_proposed - SoC_adjusted) in
    let penalty := lamda_p cfg * delta_SoC in
    modify (set_SoC SoC_adjusted) ;;;
    let info :=
      mkInfo (info_SoC info) (info_Load info) (info_Generation info)
        (Violations_SoC info) (violations_action info)
        (penalty_SoC info ++ [penalty]) (penalty_action info) in
    ret (SoC_adjusted, penalty, info).

  (** [delta_action] of [_get_action_check]. *)
Definition delta_action (action : Q) : Q :=
    Qabs (action - np_clip action (action_space_low cfg) (action_space_high cfg)).

Definition _get_action_check (action : Q) (info : Info) : M (Q * Q * Info) :=
    let adjusted_action :=
      np_clip action (action_space_low cfg) (action_space_high cfg) in
    let delta_action := Qabs (action - adjusted_action) in
    let info :=
      if negb (Qeq_bool action adjusted_action) then
        mkInfo (info_SoC info) (info_Load info) (info_Generation info)
          (Violations_SoC info)
          (violations_action info ++
             [mkViolation "Action Violation" action adjusted_action])
          (penalty_SoC info) (penalty_action info)
      else info in
    let penalty := miu_p cfg * delta_action in
    ret (adjusted_action, penalty, info).

Definition _get_price : M Q :=
    d <- the_time ;;
    let day_of_week := datetime.weekday d in
    let hour := datetime.hour d in
    ret (if (day_of_week <? 5)%Z then
           if (8 <=? hour)%Z && (hour <? 19)%Z then Price_max cfg
           else if ((7 <=? hour)%Z && (hour <? 8)%Z)
                   || ((19 <=? hour)%Z && (hour <? 23)%Z) then Price_mid cfg
           else Price_min cfg
         else if (day_of_week =? 5)%Z then
           if (7 <=? hour)%Z && (hour <? 23)%Z then Price_mid cfg
           else Price_min cfg
         else Price_min cfg).

Definition _update_generation_and_load : M unit :=
    d <- the_time ;;
    let hour := hour_of_day d in
    modify (set_G (py_max 0 (np_sin (np_pi * (hour - 6) / 12)))) ;;;
    modify (set_L (0.5 + 0.5 * np_sin (np_pi * (hour - 17) / 12))) ;;;
    g <- num G ;;
    modify (set_G (np_clip g (Generation_min cfg) (Generation_max cfg))) ;;;
    l <- num L ;;
    modify (set_L (np_clip l (Load_min cfg) (Load_max cfg))).

  (** [reset]; [now] is the reading of [datetime.datetime.now()]. *)
Definition reset (now : datetime.t) : M (list Q * Info) :=
    modify (set_current_step 0) ;;;
    modify (set_SoC (initial_SoC cfg)) ;;;
    modify (set_time (datetime.replace_midnight now)) ;;;
    _update_generation_and_load ;;;
    obs <- _get_obs ;;
    info <- _get_info ;;
    ret (obs, info).

  (** The energy-balance branch of [step]: [actual_action] as a function of
      [action_corrected] and [net_load]. *)
Definition actual_action (action_corrected net_load : Q) : Q :=
    if Qltb action_corrected 0 then
      let max_discharge := py_min (- action_corrected) net_load in
      - max_discharge
    else if Qltb 0 action_corrected then
      let surplus_pv := py_max 0 (- net_load) in
      let max_charge := py_min action_corrected surplus_pv in
      max_charge
    else 0.

  (** The grid branch of [step]: [(P_grid, P_surplus)]. *)
Definition grid_interaction (net_load_after_battery : Q) : Q * Q :=
    if Qltb 0 net_load_after_battery then (net_load_after_battery, 0)
    else if Qltb net_load_after_battery 0 then (0, - net_load_after_battery)
    else (0, 0).

Definition step (action : list Q) : M StepResult :=
    modify (fun self => set_current_step (current_step self + 1) self) ;;;
    info <- _get_info ;;
    a0 <- index0 action ;;
    '(action_corrected, penalty_action, info) <- _get_action_check a0 info ;;
    '(soc, penalty_SoC, info) <- _get_SoC action_corrected info ;;
    modify (set_SoC soc) ;;;
    _update_generation_and_load ;;;
    l <- num L ;;
    g <- num G ;;
    let net_load := l - g in
    let actual_action := actual_action action_corrected net_load in
    '(soc, penalty_SoC_additional, info) <-
       _get_SoC (actual_action - action_corrected) info ;;
    modify (set_SoC soc) ;;;
    let penalty_SoC := penalty_SoC + penalty_SoC_additional in
    let net_load_after_battery := net_load + actual_action in
    let P_grid := fst (grid_interaction net_load_after_battery) in
    let P_surplus := snd (grid_interaction net_load_after_battery) in
    price <- _get_price ;;
    let C_purchased := price * P_grid in
    let R_sale := price * P_surplus in
    let total_penalty := penalty_action + penalty_SoC in
    let reward := R_sale - C_purchased - total_penalty in
    d <- the_time ;;
    modify (set_time (datetime.add_hours d 1)) ;;;
    observation <- _get_obs ;;
    self <- get ;;
    let done := (max_steps cfg <=? current_step self)%Z in
    ret (mkStepResult observation reward done false info).

  (** A caller that issues one [step] per action of a list and keeps the
      outcome of every call together with the attributes it left. *)
Fixpoint run (actions : list (list Q)) (self : BMSEnvironment)
    : list ((exn + StepResult) * BMSEnvironment) :=
    match actions with
    | [] => []
    | a :: rest =>
        let r := step a self in
        r :: run rest (snd r)
    end.

End Methods.

(** ** Closed forms of the update law and of the exogenous signals

    The expressions of [_get_SoC], [_update_generation_and_load] and
    [_get_obs] as functions of their inputs; the lemmas below relate each to
    the method it is taken from. *)

Section ClosedForms.

Context {NP : Numpy}.
Variable cfg : Config.

  (** [SoC_proposed] of [_get_SoC]. *)
Definition SoC_proposed (soc action : Q) : Q :=
    soc + eta cfg * (action * time_interval cfg) / battery_capacity cfg.

  (** The test [SoC_proposed < self.SoC_min or SoC_proposed > self.SoC_max]. *)
Definition SoC_violated (p : Q) : bool :=
    Qltb p (SoC_min cfg) || Qltb (SoC_max cfg) p.

  (** [SoC_adjusted] of [_get_SoC]. *)
Definition SoC_adjusted (soc action : Q) : Q :=
    if SoC_violated (SoC_proposed soc action)
    then np_clip (SoC_proposed soc action) (SoC_min cfg) (SoC_max cfg)
    else SoC_proposed soc action.

  (** [penalty_SoC] of [_get_SoC]. *)
Definition SoC_penalty (soc action : Q) : Q :=
    lamda_p cfg * Qabs (SoC_proposed soc action - SoC_adjusted soc action).

  (** [self.G] and [self.L] after [_update_generation_and_load] at time [d]. *)
Definition generation_at (d : datetime.t) : Q :=
    np_clip (py_max 0 (np_sin (np_pi * (hour_of_day d - 6) / 12)))
            (Generation_min cfg) (Generation_max cfg).

Definition load_at (d : datetime.t) : Q :=
    np_clip (0.5 + 0.5 * np_sin (np_pi * (hour_of_day d - 17) / 12))
            (Load_min cfg) (Load_max cfg).

  (** The four time components of the observation built at time [d]. *)
Definition time_encoding (d : datetime.t) : list Q :=
    [ np_sin (2 * np_pi * hour_of_day d / 24);
      np_cos (2 * np_pi * hour_of_day d / 24);
      np_sin (2 * np_pi * inject_Z (datetime.weekday d) / 7);
      np_cos (2 * np_pi * inject_Z (datetime.weekday d) / 7) ].

  (** The corrected action of [step] for the request [a]. *)
Definition action_corrected (a : Q) : Q :=
    np_clip a (action_space_low cfg) (action_space_high cfg).

  (** The price [_get_price] returns at time [d]. *)
Definition price_at (d : datetime.t) : Q :=
    match fst (_get_price cfg (mkEnv None None None (Some d) 0)) with
    | inr p => p
    | inl _ => 0
    end.

(** The net load [self.L - self.G] that [step] sees at time [d]. *)
Definition net_load_at (d : datetime.t) : Q :=
  load_at d - generation_at d.

(** The SoC after the first update of [step]. *)
Definition SoC_first (s a : Q) : Q :=
  SoC_adjusted s (action_corrected a).

(** The residual [actual_action - action_corrected] of [step]. *)
Definition residual (a : Q) (d : datetime.t) : Q :=
  actual_action (action_corrected a) (net_load_at d)
  - action_corrected a.

(** The SoC after the second update of [step]. *)
Definition SoC_second (s a : Q) (d : datetime.t) : Q :=
  SoC_adjusted (SoC_first s a) (residual a d).

End ClosedForms.


(** The attributes [step] needs: [reset] has set [SoC] and [time]. *)
Definition ready (self : BMSEnvironment) : Prop :=
  (exists s, SoC self = Some s) /\ (exists d, time self = Some d).

(** A rational stand-in for numpy, to run the model on concrete inputs:
    [pi] as 355/113, Bhaskara's approximation of the sine on a half
    period, extended by symmetry and periodicity, and the [float32] cast
    as rounding to a 24-bit significand. *)
Definition approx_pi : Q := 355 # 113.

Definition bhaskara (x : Q) : Q :=
  16 * x * (approx_pi - x)
  / (5 * approx_pi * approx_pi - 4 * x * (approx_pi - x)).

Definition approx_sin (x : Q) : Q :=
  let period := 2 * approx_pi in
  let y := Qred (x - period * inject_Z (Qfloor (x / period))) in
  if Qle_bool y approx_pi then Qred (bhaskara y)
  else Qred (- bhaskara (y - approx_pi)).

Definition approx_cos (x : Q) : Q := approx_sin (x + approx_pi / 2).

(** The [float32] cast on rationals: round to the nearest number with a
    24-bit significand, ties to even (exponents below -126 share the
    spacing 2^-149 of the subnormals).  Numbers beyond the [float32] range,
    which numpy casts to an infinity, are not in the domain. *)
Definition round_half_even (q : Q) : Z :=
  let n := Qfloor q in
  match Qcompare (q - inject_Z n) (1 # 2) with
  | Lt => n
  | Gt => (n + 1)%Z
  | Eq => if Z.even n then n else (n + 1)%Z
  end.

(** The binary exponent of a positive rational: 2^e <= q < 2^(e+1). *)
Definition Qlog2 (q : Q) : Z :=
  let e := (Z.log2 (Qnum q) - Z.log2 (Zpos (Qden q)))%Z in
  if Qle_bool (Qpower 2 e) q then e else (e - 1)%Z.

Definition float32_round (q : Q) : Q :=
  if Qeq_bool q 0 then 0
  else
    let e := Z.max (Qlog2 (Qabs q)) (-126) in
    let ulp := Qpower 2 (e - 23) in
    let n := round_half_even (Qabs q / ulp) in
    Qred ((if Qle_bool 0 q then 1 else -1) * inject_Z n * ulp).

Definition numpy_approx : Numpy :=
  {| np_sin := approx_sin; np_cos := approx_cos; np_pi := approx_pi;
     np_float32 := float32_round |}.

(** 2024-01-01, a Monday, at 09:30. *)
Definition monday_morning : datetime.t := datetime.mk 738886 9 30 0 0.

(** Every action array of the list has an element 0. *)
Definition actions_ok (actions : list (list Q)) : Prop :=
  Forall (fun a => a <> []) actions.

(** ** Concrete inputs *)

(** [BMSEnvironment(initial_SoC=..., time_interval=..., max_steps=...)],
    every other keyword argument at its default. *)
Definition make_config (initial_SoC time_interval : Q) (max_steps : Z)
  : Config := {|
  initial_SoC := initial_SoC;
  SoC_min := 0.1;
  SoC_max := 0.95;
  Load_min := 0;
  Load_max := 1;
  Generation_min := 0;
  Generation_max := 1;
  Price_min := 0.1;
  Price_mid := 0.2;
  Price_max := 0.3;
  a_min := -1;
  a_max := 1;
  max_steps := max_steps;
  miu_p := 10;
  lamda_p := 10;
  eta := 0.9;
  battery_capacity := 10;
  time_interval := time_interval
|}.

(** The environment after [reset()] on the morning of 2024-01-01. *)
Definition demo_reset (cfg : Config) : BMSEnvironment :=
  snd (@reset numpy_approx cfg monday_morning __init__).

(** The calls of [step] on the stand-in numpy. *)
Definition demo_step (cfg : Config) (action : list Q) (self : BMSEnvironment)
  : (exn + StepResult) * BMSEnvironment :=
  @step numpy_approx cfg action self.

Definition demo_run (cfg : Config) (actions : list (list Q))
                    (self : BMSEnvironment)
  : list ((exn + StepResult) * BMSEnvironment) :=
  @run numpy_approx cfg actions self.

(** The SoC an outcome left in the environment, as a reduced fraction. *)
Definition SoC_left (r : (exn + StepResult) * BMSEnvironment) : option Q :=
  option_map Qred (SoC (snd r)).

(** The clock an outcome left in the environment, in minutes. *)
Definition clock_left (r : (exn + StepResult) * BMSEnvironment) : option Z :=
  option_map datetime.minutes (time (snd r)).

(** Whether an outcome is a normal return. *)
Definition returned (r : (exn + StepResult) * BMSEnvironment) : bool :=
  match fst r with
  | inr _ => true
  | inl _ => false
  end.

(** Twelve idle hours from midnight, then a request to discharge 0.5 at
    noon. *)
Definition idle_until_noon_then_discharge : list (list Q) :=
  repeat [0] 12 ++ [[-0.5]].

(** ** The declared spaces *)





(** The sum of a list of floats. *)
Definition Qsum (l : list Q) : Q := fold_right Qplus 0 l.

(** An environment in mid-episode: SoC 0.5, Monday 09:30, three steps done. *)
Definition ready_env : BMSEnvironment :=
  mkEnv (Some 0.25) (Some 0.75) (Some 0.5) (Some monday_morning) 3.

(** The [info] dictionary as [_get_info] builds it after [__init__]. *)
Definition empty_info : Info := mkInfo None None None [] [] [] [].

(** ** The SoC path of [step] on binary64 floats

    The rationals of the model above have no NaN.  This module replays the
    statements of [step] that determine the SoC (the action check, the two
    calls of [_get_SoC] and the energy-balance branch between them) on
    binary64 floats, where a NaN request can be written down.  The net load
    [self.L - self.G], which [step] computes from the sine profiles, is an
    argument. *)

Module binary64.

#[local] Set Warnings "-inexact-float".

(** numpy's [_NPY_MAX] and [_NPY_MIN] on floats, of which [np.clip] is made:
    a NaN first argument is returned as it is. *)
Definition npy_max (a b : float) : float :=
  if PrimFloat.is_nan a then a else if PrimFloat.ltb b a then a else b.

Definition npy_min (a b : float) : float :=
  if PrimFloat.is_nan a then a else if PrimFloat.ltb a b then a else b.

(** [np.clip(x, lo, hi)]. *)
Definition np_clip (x lo hi : float) : float := npy_min (npy_max x lo) hi.

(** Python's builtin [min(a, b)] and [max(a, b)]. *)
Definition py_min (a b : float) : float := if PrimFloat.ltb b a then b else a.

Definition py_max (a b : float) : float := if PrimFloat.ltb a b then b else a.

(** The attributes the SoC path reads; [action_space_low] and
    [action_space_high] are [action_space.low[0]] and
    [action_space.high[0]]. *)
Record Config : Type := {
  SoC_min : float;
  SoC_max : float;
  action_space_low : float;
  action_space_high : float;
  miu_p : float;
  lamda_p : float;
  eta : float;
  battery_capacity : float;
  time_interval : float
}.

(** The defaults of [kwargs.get]. *)
Definition default_config : Config := {|
  SoC_min := 0.1;
  SoC_max := 0.95;
  action_space_low := -1;
  action_space_high := 1;
  miu_p := 10;
  lamda_p := 10;
  eta := 0.9;
  battery_capacity := 10;
  time_interval := 1
|}.

Section Methods.

Variable cfg : Config.

(** [_get_action_check]: the corrected action, the penalty, and the
    violation entry (requested, corrected) when one is appended. *)
Definition _get_action_check (action : float)
  : float * float * option (float * float) :=
  let adjusted_action :=
    np_clip action (action_space_low cfg) (action_space_high cfg) in
  let delta_action := PrimFloat.abs (PrimFloat.sub action adjusted_action) in
  let violation :=
    if negb (PrimFloat.eqb action adjusted_action)
    then Some (action, adjusted_action) else None in
  let penalty_action := PrimFloat.mul (miu_p cfg) delta_action in
  (adjusted_action, penalty_action, violation).

(** [_get_SoC] on the SoC [SoC]: the adjusted SoC (which it stores in
    [self.SoC]), the penalty, and the violation entry (proposed, corrected)
    when one is appended. *)
Definition _get_SoC (SoC action : float)
  : float * float * option (float * float) :=
  let SoC_proposed :=
    PrimFloat.add SoC
      (PrimFloat.div
         (PrimFloat.mul (eta cfg) (PrimFloat.mul action (time_interval cfg)))
         (battery_capacity cfg)) in
  let violated :=
    PrimFloat.ltb SoC_proposed (SoC_min cfg)
    || PrimFloat.ltb (SoC_max cfg) SoC_proposed in
  let SoC_adjusted :=
    if violated then np_clip SoC_proposed (SoC_min cfg) (SoC_max cfg)
    else SoC_proposed in
  let delta_SoC := PrimFloat.abs (PrimFloat.sub SoC_proposed SoC_adjusted) in
  let penalty := PrimFloat.mul (lamda_p cfg) delta_SoC in
  (SoC_adjusted, penalty,
   if violated then Some (SoC_proposed, SoC_adjusted) else None).

(** The energy-balance branch of [step]. *)
Definition actual_action (action_corrected net_load : float) : float :=
  if PrimFloat.ltb action_corrected 0
  then PrimFloat.opp (py_min (PrimFloat.opp action_corrected) net_load)
  else if PrimFloat.ltb 0 action_corrected
  then py_min action_corrected (py_max 0 (PrimFloat.opp net_load))
  else 0%float.

(** [self.SoC] after [step([action])] on an environment with the SoC [SoC],
    when the net load of the hour is [net_load]. *)
Definition step_SoC (SoC action net_load : float) : float :=
  let '(action_corrected, _, _) := _get_action_check action in
  let '(SoC1, _, _) := _get_SoC SoC action_corrected in
  let actual := actual_action action_corrected net_load in
  let '(SoC2, _, _) :=
    _get_SoC SoC1 (PrimFloat.sub actual action_corrected) in
  SoC2.

(** [SoC_min <= SoC <= SoC_max]. *)
Definition within_bounds (SoC : float) : bool :=
  PrimFloat.leb (SoC_min cfg) SoC && PrimFloat.leb SoC (SoC_max cfg).

End Methods.

End binary64.

(** The constructor call [BMSEnvironment(a_max=...)]. *)
Definition config_a_max (v : Q) : Config := {|
  initial_SoC := 0.5;
  SoC_min := 0.1;
  SoC_max := 0.95;
  Load_min := 0;
  Load_max := 1;
  Generation_min := 0;
  Generation_max := 1;
  Price_min := 0.1;
  Price_mid := 0.2;
  Price_max := 0.3;
  a_min := -1;
  a_max := v;
  max_steps := 24;
  miu_p := 10;
  lamda_p := 10;
  eta := 0.9;
  battery_capacity := 10;
  time_interval := 1
|}.

(** * Properties *)

(** ** Comparisons, [min], [max] and [clip] *)

Lemma Qltb_lt (x y : Q) : Qltb x y = true <-> x < y.
Proof.
  unfold Qltb. rewrite negb_true_iff, <- not_true_iff_false, Qle_bool_iff.
  split; [apply Qnot_le_lt | apply Qlt_not_le].
Qed.

Lemma Qltb_ge (x y : Q) : Qltb x y = false <-> y <= x.
Proof.
  unfold Qltb. rewrite negb_false_iff. apply Qle_bool_iff.
Qed.

Lemma Qmax_r_lt (x y : Q) : x < y -> Qmax x y = y.
Proof.
  intro H. unfold Qmax, GenericMinMax.gmax.
  assert (E : (x ?= y) = Lt) by (now apply Qlt_alt).
  now rewrite E.
Qed.

Lemma Qmax_l_ge (x y : Q) : y <= x -> Qmax x y = x.
Proof.
  intro H. unfold Qmax, GenericMinMax.gmax.
  destruct (x ?= y) eqn:E; try reflexivity.
  apply Qlt_alt in E. lra.
Qed.

Lemma Qmin_r_gt (x y : Q) : y < x -> Qmin x y = y.
Proof.
  intro H. unfold Qmin, GenericMinMax.gmin.
  assert (E : (x ?= y) = Gt) by (now apply Qgt_alt).
  now rewrite E.
Qed.

Lemma Qmin_l_le (x y : Q) : x <= y -> Qmin x y = x.
Proof.
  intro H. unfold Qmin, GenericMinMax.gmin.
  destruct (x ?= y) eqn:E; try reflexivity.
  apply Qgt_alt in E. lra.
Qed.

(** The three cases of [np.clip]. *)
Lemma np_clip_below (x lo hi : Q) : lo <= hi -> x < lo -> np_clip x lo hi = lo.
Proof.
  intros Hb Hx. unfold np_clip. rewrite (Qmax_r_lt _ _ Hx).
  now apply Qmin_l_le.
Qed.

Lemma np_clip_above (x lo hi : Q) : lo <= hi -> hi < x -> np_clip x lo hi = hi.
Proof.
  intros Hb Hx. unfold np_clip. rewrite Qmax_l_ge by lra.
  now apply Qmin_r_gt.
Qed.

Lemma np_clip_inside (x lo hi : Q) : lo <= x <= hi -> np_clip x lo hi = x.
Proof.
  intros [H1 H2]. unfold np_clip. rewrite (Qmax_l_ge _ _ H1).
  now apply Qmin_l_le.
Qed.

Lemma np_clip_bounds (x lo hi : Q) : lo <= hi -> lo <= np_clip x lo hi <= hi.
Proof.
  intro Hb.
  destruct (Qlt_le_dec x lo) as [H1 | H1].
  - rewrite np_clip_below by assumption. lra.
  - destruct (Qlt_le_dec hi x) as [H2 | H2].
    + rewrite np_clip_above by assumption. lra.
    + rewrite np_clip_inside by (split; assumption). lra.
Qed.

Lemma py_min_spec (a b : Q) :
  (b < a /\ py_min a b = b) \/ (a <= b /\ py_min a b = a).
Proof.
  unfold py_min. destruct (Qltb b a) eqn:E.
  - left. split; [now apply Qltb_lt | reflexivity].
  - right. split; [now apply Qltb_ge | reflexivity].
Qed.

Lemma py_max_spec (a b : Q) :
  (a < b /\ py_max a b = b) \/ (b <= a /\ py_max a b = a).
Proof.
  unfold py_max. destruct (Qltb a b) eqn:E.
  - left. split; [now apply Qltb_lt | reflexivity].
  - right. split; [now apply Qltb_ge | reflexivity].
Qed.

(** ** The monad *)

Lemma bind_inr {A B : Type} (m : M A) (k : A -> M B) self a self' :
  m self = (inr a, self') -> bind m k self = k a self'.
Proof. intro H. unfold bind. now rewrite H. Qed.

Lemma bind_inl {A B : Type} (m : M A) (k : A -> M B) self e self' :
  m self = (inl e, self') -> bind m k self = (inl e, self').
Proof. intro H. unfold bind. now rewrite H. Qed.

(** ** The SoC update law *)

Lemma SoC_violated_false cfg (p : Q) :
  SoC_violated cfg p = false <-> SoC_min cfg <= p <= SoC_max cfg.
Proof.
  unfold SoC_violated. rewrite orb_false_iff, !Qltb_ge. tauto.
Qed.

Lemma SoC_adjusted_bounds cfg (soc action : Q) :
  SoC_min cfg <= SoC_max cfg ->
  SoC_min cfg <= SoC_adjusted cfg soc action <= SoC_max cfg.
Proof.
  intro Hb. unfold SoC_adjusted.
  destruct (SoC_violated cfg (SoC_proposed cfg soc action)) eqn:E.
  - now apply np_clip_bounds.
  - now apply SoC_violated_false.
Qed.

(** [_get_SoC] on an environment whose SoC is set: it returns the adjusted
    SoC and the penalty of the closed forms, stores the adjusted SoC, and
    appends the penalty to [info['penalty_SoC']]. *)
Lemma _get_SoC_run cfg (action : Q) (i : Info) self (s : Q) :
  SoC self = Some s ->
  exists i',
    _get_SoC cfg action i self =
      (inr (SoC_adjusted cfg s action, SoC_penalty cfg s action, i'),
       set_SoC (SoC_adjusted cfg s action) self)
    /\ penalty_SoC i' = penalty_SoC i ++ [SoC_penalty cfg s action]
    /\ violations_action i' = violations_action i
    /\ Violations_SoC i' =
         Violations_SoC i ++
         (if SoC_violated cfg (SoC_proposed cfg s action)
          then [mkViolation "SoC Violation" (SoC_proposed cfg s action)
                  (np_clip (SoC_proposed cfg s action) (SoC_min cfg) (SoC_max cfg))]
          else []).
Proof.
  intro Hs. eexists. split.
  - unfold _get_SoC. erewrite bind_inr by (unfold num; rewrite Hs; reflexivity).
    cbv beta zeta. unfold bind, modify, ret. reflexivity.
  - fold (SoC_proposed cfg s action).
    fold (SoC_violated cfg (SoC_proposed cfg s action)).
    unfold SoC_penalty, SoC_adjusted. destruct i.
    destruct (SoC_violated cfg (SoC_proposed cfg s action)); simpl;
      rewrite ?app_nil_r; auto.
Qed.

Lemma _get_SoC_unset cfg (action : Q) (i : Info) self :
  SoC self = None -> _get_SoC cfg action i self = (inl TypeError, self).
Proof.
  intro Hs. unfold _get_SoC. apply bind_inl. unfold num. now rewrite Hs.
Qed.

(** ** The other helpers of [step] *)

Section Helpers.

Context {NP : Numpy}.
Variable cfg : Config.

  (** [_get_action_check] never raises and leaves the attributes alone. *)
Lemma _get_action_check_run (a : Q) (i : Info) self :
    exists i',
      _get_action_check cfg a i self =
        (inr (action_corrected cfg a, miu_p cfg * delta_action cfg a, i'), self)
      /\ penalty_SoC i' = penalty_SoC i
      /\ Violations_SoC i' = Violations_SoC i
      /\ violations_action i' =
           violations_action i ++
           (if Qeq_bool a (action_corrected cfg a) then []
            else [mkViolation "Action Violation" a (action_corrected cfg a)]).
  Proof.
    eexists. split.
    - unfold _get_action_check, ret. reflexivity.
    - fold (action_corrected cfg a). destruct i.
      destruct (Qeq_bool a (action_corrected cfg a)); simpl;
        rewrite ?app_nil_r; auto.
  Qed.

Lemma _update_generation_and_load_run self (d : datetime.t) :
    time self = Some d ->
    _update_generation_and_load cfg self =
      (inr tt,
       mkEnv (Some (load_at cfg d)) (Some (generation_at cfg d))
             (SoC self) (Some d) (current_step self)).
  Proof.
    intro Hd. destruct self as [l g s t n]. simpl in Hd. subst t.
    reflexivity.
  Qed.

Lemma _update_generation_and_load_unset self :
    time self = None ->
    _update_generation_and_load cfg self = (inl AttributeError, self).
  Proof.
    intro Hd. unfold _update_generation_and_load. apply bind_inl.
    unfold the_time. now rewrite Hd.
  Qed.

Lemma _get_obs_run self (s l g : Q) (d : datetime.t) :
    SoC self = Some s -> L self = Some l -> G self = Some g ->
    time self = Some d ->
    _get_obs self = (inr (s :: l :: g :: time_encoding d), self).
  Proof.
    intros Hs Hl Hg Hd. destruct self as [l0 g0 s0 t n]. simpl in *. subst.
    reflexivity.
  Qed.

Lemma _get_price_run self (d : datetime.t) :
    time self = Some d -> _get_price cfg self = (inr (price_at cfg d), self).
  Proof.
    intro Hd. destruct self as [l0 g0 s0 t n]. simpl in Hd. subst t.
    reflexivity.
  Qed.

End Helpers.

(** ** One call of [step] *)

Section Step.

Context {NP : Numpy}.
Variable cfg : Config.

(** [step] on an environment that has been reset: it returns, and this is
    what it returns and leaves in the attributes. *)
Lemma step_run (a : Q) (rest : list Q) self (s : Q) (d : datetime.t) :
  SoC self = Some s -> time self = Some d ->
  exists res,
    step cfg (a :: rest) self =
      (inr res,
       mkEnv (Some (load_at cfg d)) (Some (generation_at cfg d))
             (Some (SoC_second cfg s a d))
             (Some (datetime.add_hours d 1))
             (current_step self + 1)%Z)
    /\ observation res =
         SoC_second cfg s a d :: load_at cfg d :: generation_at cfg d
         :: time_encoding (datetime.add_hours d 1)
    /\ terminated res = (max_steps cfg <=? current_step self + 1)%Z
    /\ truncated res = false
    /\ penalty_SoC (info res) =
         [SoC_penalty cfg s (action_corrected cfg a);
          SoC_penalty cfg (SoC_first cfg s a) (residual cfg a d)]
    /\ violations_action (info res) =
         (if Qeq_bool a (action_corrected cfg a) then []
          else [mkViolation "Action Violation" a (action_corrected cfg a)])
    /\ reward res =
         price_at cfg d
           * snd (grid_interaction
                    (net_load_at cfg d
                     + actual_action (action_corrected cfg a) (net_load_at cfg d)))
         - price_at cfg d
           * fst (grid_interaction
                    (net_load_at cfg d
                     + actual_action (action_corrected cfg a) (net_load_at cfg d)))
         - (miu_p cfg * delta_action cfg a
            + (SoC_penalty cfg s (action_corrected cfg a)
               + SoC_penalty cfg (SoC_first cfg s a) (residual cfg a d))).
Proof.
  intros Hs Hd. destruct self as [l0 g0 s0 t0 n]. simpl in Hs, Hd. subst.
  unfold step.
  erewrite bind_inr by (unfold modify; reflexivity).
  erewrite bind_inr by reflexivity.
  erewrite bind_inr by reflexivity.
  match goal with
  | |- context [bind (_get_action_check ?c ?x ?i) _ ?e] =>
      destruct (_get_action_check_run c x i e) as (i1 & E1 & P1 & V1 & A1)
  end.
  erewrite bind_inr by exact E1. cbv beta iota.
  match goal with
  | |- context [bind (_get_SoC ?c ?x ?i) _ ?e] =>
      destruct (_get_SoC_run c x i e s eq_refl) as (i2 & E2 & P2 & A2 & V2)
  end.
  erewrite bind_inr by exact E2. cbv beta iota.
  erewrite bind_inr by (unfold modify; reflexivity).
  erewrite bind_inr by (apply _update_generation_and_load_run with (d := d); reflexivity).
  erewrite bind_inr by reflexivity.
  erewrite bind_inr by reflexivity.
  cbv beta zeta.
  match goal with
  | |- context [bind (_get_SoC ?c ?x ?i) _ ?e] =>
      destruct (_get_SoC_run c x i e (SoC_first cfg s a) eq_refl)
        as (i3 & E3 & P3 & A3 & V3)
  end.
  erewrite bind_inr by exact E3. cbv beta iota.
  erewrite bind_inr by (unfold modify; reflexivity).
  erewrite bind_inr by (apply _get_price_run with (d := d); reflexivity).
  erewrite bind_inr by reflexivity.
  erewrite bind_inr by (unfold modify; reflexivity).
  erewrite bind_inr
    by (eapply _get_obs_run with (d := datetime.add_hours d 1); reflexivity).
  erewrite bind_inr by reflexivity.
  eexists. split; [reflexivity |].
  cbv beta iota delta [observation terminated truncated info reward].
  repeat split.
  - rewrite P3, P2, P1. reflexivity.
  - rewrite A3, A2, A1. reflexivity.
Qed.

(** [step] while [self.SoC] is still [None]: the counter is incremented,
    then the first SoC update raises. *)
Lemma step_SoC_unset (a : Q) (rest : list Q) self :
  SoC self = None ->
  step cfg (a :: rest) self =
    (inl TypeError, set_current_step (current_step self + 1) self).
Proof.
  intro Hs. unfold step.
  erewrite bind_inr by (unfold modify; reflexivity).
  erewrite bind_inr by reflexivity.
  erewrite bind_inr by reflexivity.
  match goal with
  | |- context [bind (_get_action_check ?c ?x ?i) _ ?e] =>
      destruct (_get_action_check_run c x i e) as (i1 & E1 & _)
  end.
  erewrite bind_inr by exact E1. cbv beta iota.
  apply bind_inl. apply _get_SoC_unset. exact Hs.
Qed.

(** [step] with an empty action array: [action[0]] raises. *)
Lemma step_empty_action self :
  step cfg [] self =
    (inl IndexError, set_current_step (current_step self + 1) self).
Proof. reflexivity. Qed.

(** [step] while [self.time] is [None] and the SoC is set: the exogenous
    update raises. *)
Lemma step_time_unset (a : Q) (rest : list Q) self (s : Q) :
  SoC self = Some s -> time self = None ->
  exists self', step cfg (a :: rest) self = (inl AttributeError, self').
Proof.
  intros Hs Hd. destruct self as [l0 g0 s0 t0 n]. simpl in Hs, Hd. subst.
  unfold step.
  erewrite bind_inr by (unfold modify; reflexivity).
  erewrite bind_inr by reflexivity.
  erewrite bind_inr by reflexivity.
  match goal with
  | |- context [bind (_get_action_check ?c ?x ?i) _ ?e] =>
      destruct (_get_action_check_run c x i e) as (i1 & E1 & _)
  end.
  erewrite bind_inr by exact E1. cbv beta iota.
  match goal with
  | |- context [bind (_get_SoC ?c ?x ?i) _ ?e] =>
      destruct (_get_SoC_run c x i e s eq_refl) as (i2 & E2 & _)
  end.
  erewrite bind_inr by exact E2. cbv beta iota.
  erewrite bind_inr by (unfold modify; reflexivity).
  eexists. apply bind_inl. apply _update_generation_and_load_unset.
  reflexivity.
Qed.

(** A [step] that returns was called on an environment that had been reset,
    with a non-empty action. *)
Lemma step_inr_inv (action : list Q) self res self' :
  step cfg action self = (inr res, self') ->
  action <> [] /\ ready self.
Proof.
  intro H. destruct action as [| a rest].
  - rewrite step_empty_action in H. discriminate.
  - split; [discriminate |].
    destruct (SoC self) as [s |] eqn:Hs.
    + destruct (time self) as [d |] eqn:Hd.
      * split; eauto.
      * destruct (step_time_unset a rest self s Hs Hd) as (e & E).
        rewrite E in H. discriminate.
    + rewrite (step_SoC_unset a rest self Hs) in H. discriminate.
Qed.

(** [step] keeps an environment ready. *)
Lemma step_ready (a : Q) (rest : list Q) self :
  ready self ->
  exists res, fst (step cfg (a :: rest) self) = inr res
              /\ ready (snd (step cfg (a :: rest) self)).
Proof.
  intros [[s Hs] [d Hd]].
  destruct (step_run a rest self s d Hs Hd) as (res & E & _).
  exists res. rewrite E. split; [reflexivity |].
  split; simpl; eauto.
Qed.

(** [reset] always returns, and leaves the environment ready at midnight of
    the current day with the counter at zero. *)
Lemma reset_run (now : datetime.t) self :
  exists obs i,
    reset cfg now self =
      (inr (obs, i),
       mkEnv (Some (load_at cfg (datetime.replace_midnight now)))
             (Some (generation_at cfg (datetime.replace_midnight now)))
             (Some (initial_SoC cfg))
             (Some (datetime.replace_midnight now)) 0)
    /\ obs = initial_SoC cfg
             :: load_at cfg (datetime.replace_midnight now)
             :: generation_at cfg (datetime.replace_midnight now)
             :: time_encoding (datetime.replace_midnight now)
    /\ Violations_SoC i = [] /\ violations_action i = [].
Proof.
  do 2 eexists. split; [reflexivity |]. repeat split.
Qed.

Lemma reset_ready (now : datetime.t) self :
  ready (snd (reset cfg now self)).
Proof.
  destruct (reset_run now self) as (obs & i & E & _). rewrite E.
  split; simpl; eauto.
Qed.

End Step.

(** ** Episodes: a sequence of [step] calls *)

Section Episodes.

Context {NP : Numpy}.
Variable cfg : Config.


(** The [k]-th call of a run (counting from 0) happens with the counter at
    [current_step self + k]. *)
Lemma run_nth (actions : list (list Q)) : forall self (k : nat) r,
  actions_ok actions -> ready self ->
  nth_error (run cfg actions self) k = Some r ->
  exists a rest self_k,
    ready self_k
    /\ current_step self_k = (current_step self + Z.of_nat k)%Z
    /\ r = step cfg (a :: rest) self_k.
Proof.
  induction actions as [| a actions IH]; intros self k r Hok Hr Hn.
  - destruct k; discriminate.
  - inversion Hok as [| a' l' Ha Hok']; subst.
    destruct a as [| a0 rest]; [contradiction |].
    destruct k as [| k]; simpl in Hn.
    + injection Hn as <-. exists a0, rest, self.
      repeat split; try apply Hr. simpl. lia.
    + destruct (step_ready cfg a0 rest self Hr) as (res & _ & R).
      destruct (IH _ k r Hok' R Hn) as (a1 & rest1 & self_k & Rk & Ck & E).
      exists a1, rest1, self_k. repeat split; try apply Rk; try exact E.
      rewrite Ck.
      destruct Hr as [[s Hs] [d Hd]].
      destruct (step_run cfg a0 rest self s d Hs Hd) as (res' & E' & _).
      rewrite E'. simpl. lia.
Qed.

End Episodes.

(** * The claims *)

(** C1 (the code departs from the claim).  With the default configuration
    and the SoC at 0.5 (within the bounds), the request NaN: [np.clip]
    returns NaN as the corrected action; the proposal of [_get_SoC] is NaN,
    for which both comparisons of the bounds test are false, so no violation
    is recorded, nothing is clamped, and NaN is stored as the SoC, which is
    not within [[SoC_min, SoC_max]].  Whatever the net load, the SoC [step]
    leaves is NaN, and it stays NaN in a later step with the request 0.5.
    (The out-of-range request 7, a number, is clamped and leaves the SoC
    within the bounds.) *)
Theorem C1_nan_request_escapes_clamp :
  let cfg := binary64.default_config in
  let '(a_c, _, _) := binary64._get_action_check cfg PrimFloat.nan in
  let '(soc, _, violation) := binary64._get_SoC cfg 0.5 a_c in
  binary64.within_bounds cfg 0.5 = true
  /\ PrimFloat.is_nan a_c = true
  /\ PrimFloat.is_nan soc = true
  /\ violation = None
  /\ binary64.within_bounds cfg soc = false
  /\ (forall net_load,
        PrimFloat.is_nan (binary64.step_SoC cfg 0.5 PrimFloat.nan net_load)
        = true
        /\ binary64.within_bounds cfg
             (binary64.step_SoC cfg 0.5 PrimFloat.nan net_load) = false)
  /\ binary64.within_bounds cfg
       (binary64.step_SoC cfg PrimFloat.nan 0.5 0.25) = false
  /\ binary64.within_bounds cfg (binary64.step_SoC cfg 0.5 7 0.25) = true.
Proof.
  vm_compute. repeat split.
Qed.

(** The update law at a zero action, in closed form. *)
Lemma SoC_proposed_zero cfg (s : Q) : SoC_proposed cfg s 0 == s.
Proof. unfold SoC_proposed, Qdiv. ring. Qed.

Lemma SoC_adjusted_inside cfg (s x : Q) :
  SoC_min cfg <= SoC_proposed cfg s x <= SoC_max cfg ->
  SoC_adjusted cfg s x = SoC_proposed cfg s x.
Proof.
  intro H. unfold SoC_adjusted.
  now rewrite (proj2 (SoC_violated_false cfg _) H).
Qed.

Lemma SoC_penalty_inside cfg (s x : Q) :
  SoC_min cfg <= SoC_proposed cfg s x <= SoC_max cfg ->
  SoC_penalty cfg s x == 0.
Proof.
  intro H. unfold SoC_penalty. rewrite (SoC_adjusted_inside cfg s x H).
  setoid_replace (SoC_proposed cfg s x - SoC_proposed cfg s x) with 0 by ring.
  simpl. ring.
Qed.

(** C9.  On an environment whose SoC [s] is within the configured bounds,
    [_get_SoC] with the action 0 returns (and stores) a SoC equal to [s] and
    a penalty equal to 0, and records no violation.  (The capacity the law
    divides by is not zero.) *)
Theorem C9_update_zero_identity (cfg : Config) (i : Info) self (s : Q) :
  SoC self = Some s ->
  SoC_min cfg <= s <= SoC_max cfg ->
  ~ battery_capacity cfg == 0 ->
  exists soc pen i',
    _get_SoC cfg 0 i self = (inr (soc, pen, i'), set_SoC soc self)
    /\ soc == s
    /\ pen == 0
    /\ Violations_SoC i' = Violations_SoC i
    /\ penalty_SoC i' = penalty_SoC i ++ [pen].
Proof.
  intros Hs Hb _.
  destruct (_get_SoC_run cfg 0 i self s Hs) as (i' & E & P & _ & V).
  assert (Hin : SoC_min cfg <= SoC_proposed cfg s 0 <= SoC_max cfg)
    by (rewrite SoC_proposed_zero; exact Hb).
  do 3 eexists. split; [exact E |]. repeat split.
  - rewrite SoC_adjusted_inside by exact Hin. apply SoC_proposed_zero.
  - now apply SoC_penalty_inside.
  - rewrite V, (proj2 (SoC_violated_false cfg _) Hin). apply app_nil_r.
  - exact P.
Qed.

(** The violation magnitude of the action corrector vanishes exactly on the
    declared action space. *)
Lemma delta_action_zero_iff {NP : Numpy} cfg (a : Q) :
  action_space_low cfg <= action_space_high cfg ->
  (delta_action cfg a == 0
   <-> action_space_low cfg <= a <= action_space_high cfg).
Proof.
  intro Hb. unfold delta_action.
  split.
  - intro H.
    destruct (Qlt_le_dec a (action_space_low cfg)) as [H1 | H1].
    + rewrite np_clip_below in H by assumption.
      revert H. apply Qabs_case; intros; lra.
    + destruct (Qlt_le_dec (action_space_high cfg) a) as [H2 | H2].
      * rewrite np_clip_above in H by assumption.
        revert H. apply Qabs_case; intros; lra.
      * split; assumption.
  - intro H. rewrite np_clip_inside by exact H.
    setoid_replace (a - a) with 0 by ring. reflexivity.
Qed.

(** C4.  The bounds [_get_action_check] clips against are those of the
    declared action space, [low] and [high], the [float32] casts of [a_min]
    and [a_max].  For a configuration with [low <= high] and every requested
    action [a], [_get_action_check] returns the clamp of [a] to
    [[low, high]] (so the corrected action is within the declared space),
    with the penalty [miu_p] times the violation magnitude
    [|a - a_corrected|]; the magnitude is zero exactly when
    [low <= a <= high]; and when [a] differs from the corrected action one
    violation entry with the requested and the corrected value is appended
    to [info], otherwise [info] is unchanged.  When [a_min] and [a_max] are
    [float32] numbers (the cast leaves them as they are), the corrected
    action is within [[a_min, a_max]] and the magnitude is zero exactly when
    [a_min <= a <= a_max]. *)
Theorem C4_action_corrector {NP : Numpy} (cfg : Config) (a : Q) (i : Info)
    self :
  action_space_low cfg <= action_space_high cfg ->
  exists ac pen i',
    _get_action_check cfg a i self = (inr (ac, pen, i'), self)
    /\ action_space_low cfg = np_float32 (a_min cfg)
    /\ action_space_high cfg = np_float32 (a_max cfg)
    /\ ac = np_clip a (action_space_low cfg) (action_space_high cfg)
    /\ (a < action_space_low cfg -> ac = action_space_low cfg)
    /\ (action_space_high cfg < a -> ac = action_space_high cfg)
    /\ (action_space_low cfg <= a <= action_space_high cfg -> ac = a)
    /\ action_space_low cfg <= ac <= action_space_high cfg
    /\ pen = miu_p cfg * delta_action cfg a
    /\ delta_action cfg a = Qabs (a - ac)
    /\ (delta_action cfg a == 0
        <-> action_space_low cfg <= a <= action_space_high cfg)
    /\ (~ a == ac ->
        violations_action i' =
          violations_action i ++ [mkViolation "Action Violation" a ac])
    /\ (a == ac -> violations_action i' = violations_action i)
    /\ Violations_SoC i' = Violations_SoC i
    /\ penalty_SoC i' = penalty_SoC i
    /\ (np_float32 (a_min cfg) == a_min cfg ->
        np_float32 (a_max cfg) == a_max cfg ->
        a_min cfg <= ac <= a_max cfg
        /\ (delta_action cfg a == 0 <-> a_min cfg <= a <= a_max cfg)).
Proof.
  intro Hb.
  destruct (_get_action_check_run cfg a i self) as (i' & E & P & V & A).
  exists (action_corrected cfg a), (miu_p cfg * delta_action cfg a), i'.
  split; [exact E |].
  pose proof (delta_action_zero_iff cfg a Hb) as Hz.
  assert (Hin : action_space_low cfg <= action_corrected cfg a
                <= action_space_high cfg)
    by (unfold action_corrected; now apply np_clip_bounds).
  unfold action_corrected in *.
  repeat apply conj.
  - reflexivity.
  - reflexivity.
  - reflexivity.
  - intro H. now apply np_clip_below.
  - intro H. now apply np_clip_above.
  - intro H. now apply np_clip_inside.
  - apply Hin.
  - apply Hin.
  - reflexivity.
  - reflexivity.
  - apply Hz.
  - apply Hz.
  - intro H. rewrite A.
    destruct (Qeq_bool a (np_clip a (action_space_low cfg)
                            (action_space_high cfg))) eqn:Eb.
    + apply Qeq_bool_iff in Eb. contradiction.
    + reflexivity.
  - intro H. rewrite A. apply Qeq_bool_iff in H. rewrite H. apply app_nil_r.
  - exact V.
  - exact P.
  - intros Hlo Hhi.
    assert (Hlo' : action_space_low cfg == a_min cfg) by exact Hlo.
    assert (Hhi' : action_space_high cfg == a_max cfg) by exact Hhi.
    split; [split |].
    + rewrite <- Hlo'. apply Hin.
    + rewrite <- Hhi'. apply Hin.
    + rewrite <- Hlo', <- Hhi'. exact Hz.
Qed.

(** The weekday of a timestamp is one of Monday (0) to Sunday (6). *)
Lemma weekday_range (d : datetime.t) : (0 <= datetime.weekday d < 7)%Z.
Proof. unfold datetime.weekday. apply Z.mod_pos_bound. lia. Qed.

(** Every pair of a weekday and an hour is that of some timestamp. *)
Lemma weekday_hour_realised (wd h : Z) :
  (0 <= wd < 7)%Z ->
  exists d, datetime.weekday d = wd /\ datetime.hour d = h.
Proof.
  intro H. exists (datetime.mk (wd + 1) h 0 0 0).
  unfold datetime.weekday. simpl. split; [| reflexivity].
  replace (wd + 1 + 6)%Z with (wd + 1 * 7)%Z by lia.
  rewrite Z.mod_add by lia. apply Z.mod_small. exact H.
Qed.

(** C5.  [_get_price] on an environment whose clock is set never raises,
    leaves the environment unchanged, and returns one of the three
    configured tiers, determined by the weekday and the hour of the clock
    alone: Monday to Friday the high tier for hours in [[8,19)], the mid
    tier for hours in [[7,8)] and [[19,23)], the low tier otherwise;
    Saturday the mid tier for hours in [[7,23)], the low tier otherwise;
    Sunday the low tier.  Every (weekday, hour) pair is covered. *)
Theorem C5_tariff_schedule (cfg : Config) self (d : datetime.t) :
  time self = Some d ->
  exists p,
    _get_price cfg self = (inr p, self)
    /\ (p = Price_min cfg \/ p = Price_mid cfg \/ p = Price_max cfg)
    /\ (forall self' d',
           time self' = Some d' ->
           datetime.weekday d' = datetime.weekday d ->
           datetime.hour d' = datetime.hour d ->
           _get_price cfg self' = (inr p, self'))
    /\ ((0 <= datetime.weekday d < 5)%Z ->
        ((8 <= datetime.hour d < 19)%Z -> p = Price_max cfg)
        /\ ((7 <= datetime.hour d < 8)%Z \/ (19 <= datetime.hour d < 23)%Z ->
            p = Price_mid cfg)
        /\ ((datetime.hour d < 7)%Z \/ (23 <= datetime.hour d)%Z ->
            p = Price_min cfg))
    /\ (datetime.weekday d = 5%Z ->
        ((7 <= datetime.hour d < 23)%Z -> p = Price_mid cfg)
        /\ ((datetime.hour d < 7)%Z \/ (23 <= datetime.hour d)%Z ->
            p = Price_min cfg))
    /\ (datetime.weekday d = 6%Z -> p = Price_min cfg)
    /\ ((0 <= datetime.weekday d < 5)%Z \/ datetime.weekday d = 5%Z
        \/ datetime.weekday d = 6%Z)
    /\ (forall wd h, (0 <= wd < 7)%Z ->
          exists d', datetime.weekday d' = wd /\ datetime.hour d' = h).
Proof.
  intro Hd. exists (price_at cfg d).
  split; [now apply _get_price_run |].
  assert (Hsame : forall d', datetime.weekday d' = datetime.weekday d ->
                             datetime.hour d' = datetime.hour d ->
                             price_at cfg d' = price_at cfg d).
  { intros d' Hw Hh. unfold price_at, _get_price, bind, the_time, ret.
    simpl. now rewrite Hw, Hh. }
  pose proof (weekday_range d) as Hr.
  unfold price_at, _get_price, bind, the_time, ret in *. simpl in *.
  repeat apply conj.
  - destruct (datetime.weekday d <? 5)%Z;
      [| destruct (datetime.weekday d =? 5)%Z];
      repeat match goal with
             | |- context [if ?b then _ else _] => destruct b
             end; auto.
  - intros self' d' Hd' Hw Hh.
    destruct self' as [l g s t n]. simpl in Hd'. subst t. simpl.
    now rewrite Hw, Hh.
  - intros Hw.
    replace (datetime.weekday d <? 5)%Z with true
      by (symmetry; apply Z.ltb_lt; lia).
    repeat apply conj; intros Hh;
      destruct (8 <=? datetime.hour d)%Z eqn:E1;
      destruct (datetime.hour d <? 19)%Z eqn:E2;
      destruct (7 <=? datetime.hour d)%Z eqn:E3;
      destruct (datetime.hour d <? 8)%Z eqn:E4;
      destruct (19 <=? datetime.hour d)%Z eqn:E5;
      destruct (datetime.hour d <? 23)%Z eqn:E6;
      simpl; try reflexivity; exfalso; lia.
  - intros Hw. rewrite Hw. simpl.
    repeat apply conj; intros Hh;
      destruct (7 <=? datetime.hour d)%Z eqn:E3;
      destruct (datetime.hour d <? 23)%Z eqn:E6;
      simpl; try reflexivity; exfalso; lia.
  - intros Hw. rewrite Hw. reflexivity.
  - lia.
  - apply weekday_hour_realised.
Qed.

(** The flags of the [k]-th call of a run that starts from a ready
    environment. *)
Lemma run_flags {NP : Numpy} (cfg : Config) (actions : list (list Q)) self
      (k : nat) r :
  actions_ok actions -> ready self ->
  nth_error (run cfg actions self) k = Some r ->
  exists res,
    fst r = inr res
    /\ truncated res = false
    /\ current_step (snd r) = (current_step self + Z.of_nat k + 1)%Z
    /\ terminated res = (max_steps cfg <=? current_step (snd r))%Z.
Proof.
  intros Hok Hr Hn.
  destruct (run_nth cfg actions self k r Hok Hr Hn)
    as (a & rest & self_k & [[s Hs] [d Hd]] & Ck & ->).
  destruct (step_run cfg a rest self_k s d Hs Hd) as (res & E & _ & T & U & _).
  exists res. rewrite E. simpl. rewrite T, Ck. auto.
Qed.

(** C6.  In an episode (a [reset] followed by any run of [step] calls with
    non-empty action arrays) every call returns; the [n]-th call leaves the
    step counter at [n] and returns [terminated = true] exactly when
    [n >= max_steps], so never before the counter has reached [max_steps]
    and on the call on which it reaches it; the [truncated] flag is [false]
    on every call. *)
Theorem C6_terminated_at_max_steps {NP : Numpy} (cfg : Config)
        (now : datetime.t) self0 (actions : list (list Q)) (k : nat) r :
  actions_ok actions ->
  nth_error (run cfg actions (snd (reset cfg now self0))) k = Some r ->
  exists res,
    fst r = inr res
    /\ truncated res = false
    /\ current_step (snd r) = Z.of_nat (S k)
    /\ terminated res = (max_steps cfg <=? Z.of_nat (S k))%Z
    /\ (terminated res = true <-> (max_steps cfg <= Z.of_nat (S k))%Z)
    /\ ((Z.of_nat (S k) < max_steps cfg)%Z -> terminated res = false).
Proof.
  intros Hok Hn.
  destruct (run_flags cfg actions _ k r Hok (reset_ready cfg now self0) Hn)
    as (res & E & U & C & T).
  assert (C0 : current_step (snd (reset cfg now self0)) = 0%Z).
  { destruct (reset_run cfg now self0) as (obs & i & Er & _).
    rewrite Er. reflexivity. }
  rewrite C0 in C.
  assert (C' : current_step (snd r) = Z.of_nat (S k)) by lia.
  rewrite C' in T.
  exists res. repeat apply conj; auto.
  - rewrite T. apply Z.leb_le.
  - rewrite T. apply Z.leb_le.
  - intro H. rewrite T. apply Z.leb_gt. exact H.
Qed.

(** One hour later is sixty minutes later. *)
Lemma add_hours_minutes (d : datetime.t) (h : Z) :
  datetime.minutes (datetime.add_hours d h) = (datetime.minutes d + 60 * h)%Z.
Proof.
  unfold datetime.minutes, datetime.add_hours.
  cbn [datetime.toordinal datetime.hour datetime.minute].
  pose proof (Z.div_mod (datetime.hour d + h) 24 ltac:(lia)). lia.
Qed.

(** C10.  A [step] on a ready environment whose clock reads [d] returns an
    observation whose load and generation components are the values
    [_update_generation_and_load] computes at [d] (before the clock
    advance), while its four time components are the ones [_get_obs] builds
    at [d] plus one hour (after the advance), the value the clock holds when
    [step] returns; the two timestamps are sixty minutes apart. *)
Theorem C10_observation_two_timestamps {NP : Numpy} (cfg : Config)
        (a : Q) (rest : list Q) self (s : Q) (d : datetime.t) :
  SoC self = Some s -> time self = Some d ->
  exists res self',
    step cfg (a :: rest) self = (inr res, self')
    /\ time self' = Some (datetime.add_hours d 1)
    /\ datetime.minutes (datetime.add_hours d 1) = (datetime.minutes d + 60)%Z
    /\ observation res =
         SoC_second cfg s a d :: load_at cfg d :: generation_at cfg d
         :: time_encoding (datetime.add_hours d 1)
    /\ (forall e, time e = Some d ->
          exists e',
            _update_generation_and_load cfg e = (inr tt, e')
            /\ nth_error (observation res) 1 = L e'
            /\ nth_error (observation res) 2 = G e')
    /\ (forall e obs,
          time e = Some (datetime.add_hours d 1) ->
          _get_obs e = (inr obs, e) ->
          skipn 3 (observation res) = skipn 3 obs).
Proof.
  intros Hs Hd.
  destruct (step_run cfg a rest self s d Hs Hd) as (res & E & O & _).
  do 2 eexists. split; [exact E |]. repeat apply conj.
  - reflexivity.
  - rewrite add_hours_minutes. lia.
  - exact O.
  - intros e He. eexists. split.
    + exact (_update_generation_and_load_run cfg e d He).
    + rewrite O. split; reflexivity.
  - intros e obs He Ho. rewrite O.
    destruct e as [l0 g0 s0 t0 n]. simpl in He. subst t0.
    destruct s0 as [s0 |]; [| discriminate Ho].
    destruct l0 as [l0 |]; [| discriminate Ho].
    destruct g0 as [g0 |]; [| discriminate Ho].
    rewrite (_get_obs_run _ s0 l0 g0 (datetime.add_hours d 1)) in Ho
      by reflexivity.
    injection Ho as <-. reflexivity.
Qed.

(** ** The energy-balance branch *)

(** With a discharge request and a deficit ([net_load >= 0]) the branch
    discharges at most the deficit. *)
Lemma actual_action_discharge_deficit (a_c net : Q) :
  a_c < 0 -> 0 <= net ->
  actual_action a_c net == - Qmin (- a_c) (Qmax net 0)
  /\ a_c <= actual_action a_c net <= 0.
Proof.
  intros Ha Hn. unfold actual_action.
  rewrite (proj2 (Qltb_lt a_c 0) Ha). cbv zeta.
  rewrite (Qmax_l_ge net 0 Hn).
  destruct (py_min_spec (- a_c) net) as [[H ->] | [H ->]].
  - rewrite Qmin_r_gt by exact H. split; [reflexivity | lra].
  - rewrite Qmin_l_le by exact H. split; [reflexivity | lra].
Qed.

(** With a discharge request and a surplus ([net_load < 0]) the branch
    returns the surplus with a positive sign: a charge. *)
Lemma actual_action_discharge_surplus (a_c net : Q) :
  a_c < 0 -> net < 0 ->
  actual_action a_c net = - net /\ 0 < actual_action a_c net.
Proof.
  intros Ha Hn. unfold actual_action.
  rewrite (proj2 (Qltb_lt a_c 0) Ha). cbv zeta.
  destruct (py_min_spec (- a_c) net) as [[H ->] | [H ->]].
  - split; [reflexivity | lra].
  - lra.
Qed.

(** C2 (the code departs from the claim).  With the corrected action -0.5
    and the net load -0.25 (a surplus) the energy-balance branch of [step]
    returns +0.25: not the [-min(-a_c, max(net, 0)) = 0] of the claim, not
    within [[a_c, 0]], and larger in magnitude than [max(net, 0) = 0].  In
    an episode: after twelve idle hours from midnight, a request to
    discharge 0.5 at noon, when generation exceeds load, raises the state of
    charge from 1/2 to 3413/5800. *)
Theorem C2_discharge_into_surplus :
  actual_action (-0.5) (-0.25) == 0.25
  /\ - Qmin (- (-0.5)) (Qmax (-0.25) 0) == 0
  /\ ~ (-0.5 <= actual_action (-0.5) (-0.25) <= 0)
  /\ ~ (Qabs (actual_action (-0.5) (-0.25)) <= Qmax (-0.25) 0)
  /\ map SoC_left
       (skipn 11 (demo_run default_config idle_until_noon_then_discharge
                           (demo_reset default_config)))
     = [Some (1 # 2); Some (3413 # 5800)]
  /\ map returned
       (demo_run default_config idle_until_noon_then_discharge
                 (demo_reset default_config))
     = repeat true 13.
Proof.
  repeat apply conj.
  - vm_compute. reflexivity.
  - vm_compute. reflexivity.
  - intros [_ H]. vm_compute in H. apply H. reflexivity.
  - intro H. vm_compute in H. apply H. reflexivity.
  - vm_compute. reflexivity.
  - vm_compute. reflexivity.
Qed.

(** ** The two SoC updates of [step] *)

(** When the first update is not clamped, the proposal of the second update
    is the proposal of a single update with the realised action. *)
Lemma two_updates_without_clamp cfg (s a_c actual : Q) :
  SoC_min cfg <= SoC_proposed cfg s a_c <= SoC_max cfg ->
  SoC_proposed cfg (SoC_adjusted cfg s a_c) (actual - a_c)
  == SoC_proposed cfg s actual.
Proof.
  intro H. rewrite (SoC_adjusted_inside cfg s a_c H).
  unfold SoC_proposed, Qdiv. ring.
Qed.

(** C3 (the code departs from the claim).  With [initial_SoC = 0.95] (the
    upper bound), after [reset], the call [step([1.0])] at midnight: there is
    no surplus, so the realised action is 0 and a single application of the
    update law with it leaves the SoC at 0.95; but the first update, with
    the corrected action 1, is clamped at 0.95 (penalty 0.9), and the second
    update, with the residual -1, then lowers the SoC to 0.86.  The net
    effect of the two updates is not that of one update with the realised
    action. *)
Theorem C3_residual_after_clamp :
  option_map Qred (SoC (demo_reset (make_config 0.95 1 24))) = Some (19 # 20)
  /\ actual_action
       (@action_corrected numpy_approx (make_config 0.95 1 24) 1)
       (@net_load_at numpy_approx (make_config 0.95 1 24)
          (datetime.replace_midnight monday_morning)) == 0
  /\ Qred (SoC_adjusted (make_config 0.95 1 24) 0.95 0) = 19 # 20
  /\ SoC_left (demo_step (make_config 0.95 1 24) [1]
                 (demo_reset (make_config 0.95 1 24))) = Some (43 # 50)
  /\ match fst (demo_step (make_config 0.95 1 24) [1]
                  (demo_reset (make_config 0.95 1 24))) with
     | inr res => map Qred (penalty_SoC (info res)) = [9 # 10; 0]
     | inl _ => False
     end.
Proof.
  repeat apply conj; vm_compute; reflexivity.
Qed.

(** ** The clock *)

(** Whatever the configuration, a [step] advances the clock by sixty
    minutes. *)
Lemma step_clock_one_hour {NP : Numpy} (cfg : Config) (a : Q) (rest : list Q)
      self (s : Q) (d : datetime.t) :
  SoC self = Some s -> time self = Some d ->
  clock_left (step cfg (a :: rest) self) = Some (datetime.minutes d + 60)%Z.
Proof.
  intros Hs Hd.
  destruct (step_run cfg a rest self s d Hs Hd) as (res & E & _).
  rewrite E. unfold clock_left. simpl. rewrite add_hours_minutes.
  f_equal.
Qed.

(** C8 (the code departs from the claim).  With [time_interval = 2] hours,
    after [reset], the call [step([0.5])] advances the clock by 60 minutes,
    not by the 120 minutes of one configured step duration; the SoC update of
    the same call does integrate the action over two hours (0.5 becomes
    0.59 in the first update). *)
Theorem C8_clock_ignores_time_interval :
  time_interval (make_config 0.5 2 24) == 2
  /\ option_map datetime.minutes (time (demo_reset (make_config 0.5 2 24)))
     = Some 1063994400%Z
  /\ clock_left (demo_step (make_config 0.5 2 24) [0.5]
                   (demo_reset (make_config 0.5 2 24)))
     = Some (1063994400 + 60)%Z
  /\ Qred (@SoC_first numpy_approx (make_config 0.5 2 24) 0.5 0.5)
     = 59 # 100.
Proof.
  repeat apply conj; vm_compute; reflexivity.
Qed.

(** The adjusted SoC depends on the proposal only up to equality of
    rationals. *)
Lemma SoC_adjusted_compat cfg (s x s' x' : Q) :
  SoC_proposed cfg s x == SoC_proposed cfg s' x' ->
  SoC_adjusted cfg s x == SoC_adjusted cfg s' x'.
Proof.
  intro H. unfold SoC_adjusted.
  destruct (SoC_violated cfg (SoC_proposed cfg s x)) eqn:E;
    destruct (SoC_violated cfg (SoC_proposed cfg s' x')) eqn:E'.
  - unfold np_clip. now rewrite H.
  - apply SoC_violated_false in E'.
    assert (E2 : SoC_violated cfg (SoC_proposed cfg s x) = false)
      by (apply SoC_violated_false; rewrite H; exact E').
    congruence.
  - apply SoC_violated_false in E.
    assert (E2 : SoC_violated cfg (SoC_proposed cfg s' x') = false)
      by (apply SoC_violated_false; rewrite <- H; exact E).
    congruence.
  - exact H.
Qed.

(** When the first update of [step] is not clamped, the SoC after the two
    updates is the one a single update with the realised action gives. *)
Lemma two_updates_as_one {NP : Numpy} (cfg : Config) (s a : Q)
      (d : datetime.t) :
  SoC_min cfg <= SoC_proposed cfg s (action_corrected cfg a) <= SoC_max cfg ->
  SoC_second cfg s a d
  == SoC_adjusted cfg s
       (actual_action (action_corrected cfg a) (net_load_at cfg d)).
Proof.
  intro H. unfold SoC_second, SoC_first, residual.
  apply SoC_adjusted_compat. now apply two_updates_without_clamp.
Qed.

(** ** [step] outside an episode *)

(** C7, as the code has it.  There is no usage check in [step].  Before any
    [reset] (the SoC is still [None]) a call increments the step counter and
    then raises: a [TypeError] from the arithmetic on the unset SoC, or an
    [IndexError] when the action array is empty.  After a call that returned
    [terminated = true], a further call raises nothing: it performs an
    ordinary step and returns [terminated = true] and [truncated = false]
    again. *)
Theorem C7_step_outside_episode {NP : Numpy} (cfg : Config) :
  (forall (action : list Q) self,
      SoC self = None ->
      step cfg action self =
        (inl (match action with [] => IndexError | _ :: _ => TypeError end),
         set_current_step (current_step self + 1) self))
  /\
  (forall (action : list Q) self res self' (a' : Q) (rest' : list Q),
      step cfg action self = (inr res, self') ->
      terminated res = true ->
      exists res',
        fst (step cfg (a' :: rest') self') = inr res'
        /\ terminated res' = true
        /\ truncated res' = false
        /\ current_step (snd (step cfg (a' :: rest') self'))
           = (current_step self' + 1)%Z).
Proof.
  split.
  - intros [| a rest] self Hs.
    + apply step_empty_action.
    + now apply step_SoC_unset.
  - intros action self res self' a' rest' E T.
    destruct (step_inr_inv cfg action self res self' E)
      as (Ha & [s Hs] & [d Hd]).
    destruct action as [| a rest]; [contradiction |].
    destruct (step_run cfg a rest self s d Hs Hd) as (res0 & E0 & _ & T0 & _).
    rewrite E0 in E. injection E as -> <-.
    match goal with
    | |- context [step cfg (a' :: rest') ?e] =>
        destruct (step_run cfg a' rest' e _ _ eq_refl eq_refl)
          as (res' & E' & _ & T' & U' & _)
    end.
    exists res'. rewrite E'. simpl in *.
    repeat apply conj; auto.
    rewrite T'. rewrite T0 in T. apply Z.leb_le in T. apply Z.leb_le. lia.
Qed.

(** C7, as the claim has it, fails: a call of [step] after a call that
    returned [terminated = true] does not always raise.  With
    [max_steps = 1], the first call after [reset] returns
    [terminated = true], and the call after it returns as well. *)
Lemma C7_step_after_termination_returns :
  ~ (forall (NP : Numpy) (cfg : Config) (action : list Q) self res self',
        step cfg action self = (inr res, self') ->
        terminated res = true ->
        forall action' : list Q,
          action' <> [] ->
          exists e, fst (step cfg action' self') = inl e).
Proof.
  intro H.
  pose (cfg := make_config 0.5 1 1).
  destruct (reset_ready (NP := numpy_approx) cfg monday_morning __init__)
    as [[s Hs] [d Hd]].
  destruct (step_run (NP := numpy_approx) cfg 0 [] _ s d Hs Hd)
    as (res & E & _ & T & _).
  assert (T1 : terminated res = true).
  { rewrite T.
    destruct (reset_run (NP := numpy_approx) cfg monday_morning __init__)
      as (obs & i & Er & _).
    rewrite Er. reflexivity. }
  destruct (H numpy_approx cfg [0] _ res _ E T1 [0]) as [e He];
    [discriminate |].
  match type of He with
  | fst (step cfg [0] ?e0) = _ =>
      destruct (step_run (NP := numpy_approx) cfg 0 [] e0 _ _ eq_refl eq_refl)
        as (res' & E' & _)
  end.
  rewrite E' in He. cbn [fst] in He. congruence.
Qed.

(** * The claims on concrete inputs *)


(** C4 on the default configuration, whose bounds -1 and 1 are [float32]
    numbers: the request 1.5 is corrected to the upper bound, within the
    envelope [[-1, 1]]. *)
Lemma C4_witness :
  @action_space_low numpy_approx default_config
  <= @action_space_high numpy_approx default_config
  /\ exists ac pen i',
       @_get_action_check numpy_approx default_config 1.5
         (mkInfo None None None [] [] [] []) __init__
       = (inr (ac, pen, i'), __init__)
       /\ (@action_space_high numpy_approx default_config < 1.5 ->
           ac = @action_space_high numpy_approx default_config)
       /\ pen = miu_p default_config
                * @delta_action numpy_approx default_config 1.5
       /\ a_min default_config <= ac <= a_max default_config.
Proof.
  assert (H : @action_space_low numpy_approx default_config
              <= @action_space_high numpy_approx default_config)
    by (vm_compute; discriminate).
  split; [exact H |].
  destruct (@C4_action_corrector numpy_approx default_config 1.5
              (mkInfo None None None [] [] [] []) __init__ H)
    as (ac & pen & i' & E & _ & _ & _ & _ & A & _ & _ & P & _ & _ & _ & _
        & _ & _ & F).
  destruct F as [B _]; [vm_compute; reflexivity .. |].
  exists ac, pen, i'. repeat apply conj; try assumption; apply B.
Defined.

(** C4 with the bounds [a_min] and [a_max] themselves fails for bounds that
    are not [float32] numbers.  With [a_max = 0.1] the request 0.5 is
    corrected to 13421773/2^27 (0.100000001490116...), the [float32] cast
    of 0.1, which is above [a_max].  With [a_max = 0.7] the request 0.7,
    inside [[a_min, a_max]], is corrected to 11744051/2^24
    (0.699999988079071...), with a violation magnitude that is not zero and
    a violation entry. *)
Lemma C4_float32_bound_is_not_a_max :
  a_min (config_a_max 0.1) <= a_max (config_a_max 0.1)
  /\ match fst (@_get_action_check numpy_approx (config_a_max 0.1) 0.5
                  empty_info __init__) with
     | inr (ac, _, _) =>
         ac = 13421773 # 134217728 /\ a_max (config_a_max 0.1) < ac
     | inl _ => False
     end
  /\ a_min (config_a_max 0.7) <= 0.7 <= a_max (config_a_max 0.7)
  /\ match fst (@_get_action_check numpy_approx (config_a_max 0.7) 0.7
                  empty_info __init__) with
     | inr (ac, _, i') =>
         ac = 11744051 # 16777216
         /\ ac < 0.7
         /\ ~ @delta_action numpy_approx (config_a_max 0.7) 0.7 == 0
         /\ violations_action i' = [mkViolation "Action Violation" 0.7 ac]
     | inl _ => False
     end.
Proof.
  repeat apply conj; vm_compute; try reflexivity; discriminate.
Qed.

(** C5 on a Monday at 09:30: the high tier. *)
Lemma C5_witness :
  time (set_time monday_morning __init__) = Some monday_morning
  /\ exists p,
       _get_price default_config (set_time monday_morning __init__)
       = (inr p, set_time monday_morning __init__)
       /\ ((8 <= datetime.hour monday_morning < 19)%Z ->
           p = Price_max default_config).
Proof.
  split; [reflexivity |].
  destruct (C5_tariff_schedule default_config
              (set_time monday_morning __init__) monday_morning eq_refl)
    as (p & E & _ & _ & W & _).
  exists p. split; [exact E |].
  assert (Hw : (0 <= datetime.weekday monday_morning < 5)%Z)
    by (vm_compute; split; (reflexivity || discriminate)).
  exact (proj1 (W Hw)).
Defined.

(** C6 on an episode of length two: the second call terminates it. *)
Lemma C6_witness :
  actions_ok [[0]; [0]]
  /\ exists r,
       nth_error (@run numpy_approx (make_config 0.5 1 2) [[0]; [0]]
                    (snd (@reset numpy_approx (make_config 0.5 1 2)
                            monday_morning __init__))) 1
       = Some r
       /\ exists res,
            fst r = inr res
            /\ truncated res = false
            /\ terminated res = (max_steps (make_config 0.5 1 2) <=? 2)%Z.
Proof.
  assert (Hok : actions_ok [[0]; [0]]) by (repeat constructor; discriminate).
  split; [exact Hok |].
  eexists. split; [reflexivity |].
  refine (let H := @C6_terminated_at_max_steps numpy_approx
                     (make_config 0.5 1 2) monday_morning __init__
                     [[0]; [0]] 1%nat _ Hok eq_refl in _).
  destruct H as (res & E & U & _ & T & _).
  exists res. repeat apply conj; assumption.
Defined.

(** C7 on the environment just constructed: the first [step] raises. *)
Lemma C7_witness :
  SoC __init__ = None
  /\ @step numpy_approx default_config [0] __init__
     = (inl TypeError,
        set_current_step (current_step __init__ + 1) __init__).
Proof.
  split; [reflexivity |].
  exact (proj1 (@C7_step_outside_episode numpy_approx default_config)
               [0] __init__ eq_refl).
Defined.

(** C9 on the default configuration at SoC 0.5. *)
Lemma C9_witness :
  SoC (set_SoC 0.5 __init__) = Some 0.5
  /\ SoC_min default_config <= 0.5 <= SoC_max default_config
  /\ ~ battery_capacity default_config == 0
  /\ exists soc pen i',
       _get_SoC default_config 0 (mkInfo None None None [] [] [] [])
                (set_SoC 0.5 __init__)
       = (inr (soc, pen, i'), set_SoC soc (set_SoC 0.5 __init__))
       /\ soc == 0.5 /\ pen == 0.
Proof.
  assert (Hb : SoC_min default_config <= 0.5 <= SoC_max default_config)
    by (split; vm_compute; discriminate).
  assert (Hc : ~ battery_capacity default_config == 0)
    by (vm_compute; discriminate).
  split; [reflexivity |]. split; [exact Hb |]. split; [exact Hc |].
  destruct (C9_update_zero_identity default_config
              (mkInfo None None None [] [] [] []) (set_SoC 0.5 __init__) 0.5
              eq_refl Hb Hc)
    as (soc & pen & i' & E & S & P & _).
  exists soc, pen, i'. repeat apply conj; assumption.
Defined.

(** C10 on a ready environment whose clock reads Monday 09:30. *)
Lemma C10_witness :
  SoC (set_time monday_morning (set_SoC 0.5 __init__)) = Some 0.5
  /\ time (set_time monday_morning (set_SoC 0.5 __init__))
     = Some monday_morning
  /\ exists res self',
       @step numpy_approx default_config [0.5]
         (set_time monday_morning (set_SoC 0.5 __init__))
       = (inr res, self')
       /\ time self' = Some (datetime.add_hours monday_morning 1)
       /\ skipn 3 (observation res)
          = @time_encoding numpy_approx (datetime.add_hours monday_morning 1).
Proof.
  split; [reflexivity |]. split; [reflexivity |].
  destruct (@C10_observation_two_timestamps numpy_approx default_config
              0.5 [] (set_time monday_morning (set_SoC 0.5 __init__)) 0.5
              monday_morning eq_refl eq_refl)
    as (res & self' & E & T & _ & O & _).
  exists res, self'. split; [exact E |]. split; [exact T |].
  rewrite O. reflexivity.
Defined.

(** * Further properties of the engine *)

(** ** Grid interaction *)

(** X1.  The grid branch of [step] closes the energy balance: imports and
    exports are never negative, never both non-zero, and their difference is
    the net load left after the battery. *)
Theorem X1_grid_interaction_balance (net_load_after_battery : Q) :
  0 <= fst (grid_interaction net_load_after_battery)
  /\ 0 <= snd (grid_interaction net_load_after_battery)
  /\ (fst (grid_interaction net_load_after_battery) == 0
      \/ snd (grid_interaction net_load_after_battery) == 0)
  /\ fst (grid_interaction net_load_after_battery)
     - snd (grid_interaction net_load_after_battery)
     == net_load_after_battery.
Proof.
  unfold grid_interaction.
  destruct (Qltb 0 net_load_after_battery) eqn:E1.
  - apply Qltb_lt in E1. simpl. repeat apply conj; lra.
  - apply Qltb_ge in E1.
    destruct (Qltb net_load_after_battery 0) eqn:E2.
    + apply Qltb_lt in E2. simpl. repeat apply conj; lra.
    + apply Qltb_ge in E2. simpl. repeat apply conj; lra.
Qed.

(** ** The energy-balance branch *)

(** X2.  With a charge request the branch realises the smaller of the
    request and the PV surplus [max(0, -net_load)]: the realised action is
    between 0 and the request, never more than the surplus, and 0 when there
    is no surplus. *)
Theorem X2_actual_action_charge (a_c net : Q) :
  0 < a_c ->
  actual_action a_c net == Qmin a_c (Qmax 0 (- net))
  /\ 0 <= actual_action a_c net <= a_c
  /\ actual_action a_c net <= Qmax 0 (- net)
  /\ (0 <= net -> actual_action a_c net == 0).
Proof.
  intro Ha. unfold actual_action.
  rewrite (proj2 (Qltb_ge a_c 0)) by lra.
  rewrite (proj2 (Qltb_lt 0 a_c) Ha). cbv zeta.
  destruct (py_max_spec 0 (- net)) as [[Hm ->] | [Hm ->]].
  - rewrite (Qmax_r_lt 0 (- net) Hm).
    destruct (py_min_spec a_c (- net)) as [[H ->] | [H ->]].
    + rewrite Qmin_r_gt by exact H. repeat apply conj; intros; lra.
    + rewrite Qmin_l_le by exact H. repeat apply conj; intros; lra.
  - rewrite (Qmax_l_ge 0 (- net) Hm).
    destruct (py_min_spec a_c 0) as [[H ->] | [H ->]].
    + rewrite Qmin_r_gt by exact H. repeat apply conj; intros; lra.
    + repeat apply conj; intros; lra.
Qed.

(** X3.  With a discharge request and a deficit ([net_load >= 0]) the
    realised action is a discharge of at most the request and at most the
    deficit; and an idle request is realised as 0. *)
Theorem X3_actual_action_discharge_within_deficit (a_c net : Q) :
  a_c < 0 -> 0 <= net ->
  a_c <= actual_action a_c net <= 0
  /\ - actual_action a_c net <= net
  /\ actual_action a_c net == - Qmin (- a_c) net
  /\ actual_action 0 net = 0.
Proof.
  intros Ha Hn.
  destruct (actual_action_discharge_deficit a_c net Ha Hn) as [E B].
  rewrite (Qmax_l_ge net 0 Hn) in E.
  repeat apply conj; try apply B; try exact E; try reflexivity.
  rewrite E.
  destruct (Qlt_le_dec net (- a_c)) as [H | H].
  - rewrite Qmin_r_gt by exact H. lra.
  - rewrite Qmin_l_le by exact H. lra.
Qed.

(** ** The SoC update law *)

(** The adjusted SoC as a clamp of the proposal. *)
Lemma SoC_adjusted_cases cfg (s x : Q) :
  SoC_min cfg <= SoC_max cfg ->
  (SoC_proposed cfg s x < SoC_min cfg ->
   SoC_violated cfg (SoC_proposed cfg s x) = true
   /\ SoC_adjusted cfg s x = SoC_min cfg)
  /\ (SoC_max cfg < SoC_proposed cfg s x ->
      SoC_violated cfg (SoC_proposed cfg s x) = true
      /\ SoC_adjusted cfg s x = SoC_max cfg)
  /\ (SoC_min cfg <= SoC_proposed cfg s x <= SoC_max cfg ->
      SoC_violated cfg (SoC_proposed cfg s x) = false
      /\ SoC_adjusted cfg s x = SoC_proposed cfg s x).
Proof.
  intro Hb. unfold SoC_adjusted. repeat apply conj; intro H.
  - assert (V : SoC_violated cfg (SoC_proposed cfg s x) = true).
    { unfold SoC_violated. rewrite (proj2 (Qltb_lt _ _) H). reflexivity. }
    rewrite V. split; [reflexivity |]. now apply np_clip_below.
  - assert (V : SoC_violated cfg (SoC_proposed cfg s x) = true).
    { unfold SoC_violated. rewrite (proj2 (Qltb_lt _ _) H). apply orb_true_r. }
    rewrite V. split; [reflexivity |]. now apply np_clip_above.
  - rewrite (proj2 (SoC_violated_false cfg _) H). split; reflexivity.
Qed.


(** X4.  [_get_SoC] clamps to the nearest bound and charges the overshoot:
    a proposal below [SoC_min] is stored as [SoC_min], one above [SoC_max] as
    [SoC_max], with the penalty [lamda_p] times the distance to that bound
    and one violation entry holding the proposal and the bound; a proposal
    within the bounds is stored as it is, with a zero penalty and no entry.
    In every case the penalty is appended to [info['penalty_SoC']]. *)
Theorem X4_get_SoC_clamp_cases (cfg : Config) (action : Q) (i : Info) self
        (s : Q) :
  SoC self = Some s ->
  SoC_min cfg <= SoC_max cfg ->
  exists soc pen i',
    _get_SoC cfg action i self = (inr (soc, pen, i'), set_SoC soc self)
    /\ penalty_SoC i' = penalty_SoC i ++ [pen]
    /\ (SoC_proposed cfg s action < SoC_min cfg ->
        soc = SoC_min cfg
        /\ pen == lamda_p cfg * (SoC_min cfg - SoC_proposed cfg s action)
        /\ Violations_SoC i' =
             Violations_SoC i ++
             [mkViolation "SoC Violation" (SoC_proposed cfg s action)
                          (SoC_min cfg)])
    /\ (SoC_max cfg < SoC_proposed cfg s action ->
        soc = SoC_max cfg
        /\ pen == lamda_p cfg * (SoC_proposed cfg s action - SoC_max cfg)
        /\ Violations_SoC i' =
             Violations_SoC i ++
             [mkViolation "SoC Violation" (SoC_proposed cfg s action)
                          (SoC_max cfg)])
    /\ (SoC_min cfg <= SoC_proposed cfg s action <= SoC_max cfg ->
        soc = SoC_proposed cfg s action
        /\ pen == 0
        /\ Violations_SoC i' = Violations_SoC i).
Proof.
  intros Hs Hb.
  destruct (_get_SoC_run cfg action i self s Hs) as (i' & E & P & _ & V).
  destruct (SoC_adjusted_cases cfg s action Hb) as (C1 & C2 & C3).
  do 3 eexists. split; [exact E |]. split; [exact P |].
  repeat apply conj; intro H; repeat apply conj.
  - now apply C1.
  - unfold SoC_penalty. rewrite (proj2 (C1 H)).
    rewrite Qabs_neg by lra. ring.
  - rewrite V, (proj1 (C1 H)).
    now rewrite (np_clip_below _ _ _ Hb H).
  - now apply C2.
  - unfold SoC_penalty. rewrite (proj2 (C2 H)).
    rewrite Qabs_pos by lra. ring.
  - rewrite V, (proj1 (C2 H)).
    now rewrite (np_clip_above _ _ _ Hb H).
  - now apply C3.
  - now apply SoC_penalty_inside.
  - rewrite V, (proj1 (C3 H)). apply app_nil_r.
Qed.



(** X6.  The update law is monotone in the action: with a positive
    efficiency and capacity and a non-negative step duration, a larger
    action never leaves a smaller SoC. *)
Theorem X6_get_SoC_monotone (cfg : Config) (x y : Q) (i : Info) self (s : Q) :
  SoC self = Some s ->
  SoC_min cfg <= SoC_max cfg ->
  0 < eta cfg -> 0 < battery_capacity cfg -> 0 <= time_interval cfg ->
  x <= y ->
  exists soc_x pen_x ix soc_y pen_y iy,
    _get_SoC cfg x i self = (inr (soc_x, pen_x, ix), set_SoC soc_x self)
    /\ _get_SoC cfg y i self = (inr (soc_y, pen_y, iy), set_SoC soc_y self)
    /\ soc_x <= soc_y.
Proof.
  intros Hs Hb He Hc Ht Hxy.
  destruct (_get_SoC_run cfg x i self s Hs) as (ix & Ex & _).
  destruct (_get_SoC_run cfg y i self s Hs) as (iy & Ey & _).
  do 6 eexists. split; [exact Ex |]. split; [exact Ey |].
  assert (Hp : SoC_proposed cfg s x <= SoC_proposed cfg s y).
  { unfold SoC_proposed. apply Qplus_le_r.
    apply Qle_shift_div_l; [exact Hc |].
    unfold Qdiv. rewrite <- Qmult_assoc, <- Qmult_assoc.
    setoid_replace (/ battery_capacity cfg * battery_capacity cfg) with 1
      by (rewrite Qmult_comm; apply Qmult_inv_r; lra).
    rewrite Qmult_1_r.
    apply Qmult_le_l; [exact He |].
    apply Qmult_le_compat_r; assumption. }
  destruct (SoC_adjusted_cases cfg s x Hb) as (X1 & X2 & X3).
  destruct (SoC_adjusted_cases cfg s y Hb) as (Y1 & Y2 & Y3).
  pose proof (SoC_adjusted_bounds cfg s x Hb) as Bx.
  pose proof (SoC_adjusted_bounds cfg s y Hb) as By.
  destruct (Qlt_le_dec (SoC_proposed cfg s x) (SoC_min cfg)) as [H1 | H1].
  - rewrite (proj2 (X1 H1)). apply By.
  - destruct (Qlt_le_dec (SoC_max cfg) (SoC_proposed cfg s y)) as [H2 | H2].
    + rewrite (proj2 (Y2 H2)). apply Bx.
    + assert (Hx : SoC_min cfg <= SoC_proposed cfg s x <= SoC_max cfg)
        by (split; lra).
      assert (Hy : SoC_min cfg <= SoC_proposed cfg s y <= SoC_max cfg)
        by (split; lra).
      rewrite (proj2 (X3 Hx)), (proj2 (Y3 Hy)). exact Hp.
Qed.

(** ** What [step] puts in [info] *)

(** [_get_action_check] touches [info['violations_action']] only. *)
Lemma _get_action_check_fields {NP : Numpy} cfg (a : Q) (i : Info) self :
  exists i',
    _get_action_check cfg a i self =
      (inr (action_corrected cfg a, miu_p cfg * delta_action cfg a, i'), self)
    /\ info_SoC i' = info_SoC i
    /\ info_Load i' = info_Load i
    /\ info_Generation i' = info_Generation i
    /\ Violations_SoC i' = Violations_SoC i
    /\ penalty_SoC i' = penalty_SoC i
    /\ penalty_action i' = penalty_action i
    /\ (List.length (violations_action i')
        <= List.length (violations_action i) + 1)%nat.
Proof.
  eexists. split.
  - unfold _get_action_check, ret. reflexivity.
  - fold (action_corrected cfg a). destruct i.
    destruct (Qeq_bool a (action_corrected cfg a)); simpl;
      rewrite ?length_app; simpl; repeat apply conj; auto; lia.
Qed.

(** [_get_SoC] appends one penalty and at most one violation and touches
    nothing else of [info]. *)
Lemma _get_SoC_fields cfg (action : Q) (i : Info) self (s : Q) :
  SoC self = Some s ->
  exists i',
    _get_SoC cfg action i self =
      (inr (SoC_adjusted cfg s action, SoC_penalty cfg s action, i'),
       set_SoC (SoC_adjusted cfg s action) self)
    /\ info_SoC i' = info_SoC i
    /\ info_Load i' = info_Load i
    /\ info_Generation i' = info_Generation i
    /\ violations_action i' = violations_action i
    /\ penalty_action i' = penalty_action i
    /\ List.length (penalty_SoC i') = S (List.length (penalty_SoC i))
    /\ (List.length (Violations_SoC i')
        <= List.length (Violations_SoC i) + 1)%nat.
Proof.
  intro Hs. eexists. split.
  - unfold _get_SoC. erewrite bind_inr by (unfold num; rewrite Hs; reflexivity).
    cbv beta zeta. unfold bind, modify, ret. reflexivity.
  - fold (SoC_proposed cfg s action).
    fold (SoC_violated cfg (SoC_proposed cfg s action)).
    destruct i.
    destruct (SoC_violated cfg (SoC_proposed cfg s action)); simpl;
      rewrite ?length_app; simpl; repeat apply conj; auto; lia.
Qed.

(** X7.  The [info] a [step] returns is a snapshot taken before anything is
    updated: its SoC, load and generation entries are the attributes as they
    were when the call began.  It carries exactly two SoC penalties, at most
    two SoC violations and at most one action violation, and its
    [penalty_action] list is always empty: the action penalty enters the
    reward only. *)
Theorem X7_step_info_snapshot {NP : Numpy} (cfg : Config) (a : Q)
        (rest : list Q) self (s : Q) (d : datetime.t) :
  SoC self = Some s -> time self = Some d ->
  exists res self',
    step cfg (a :: rest) self = (inr res, self')
    /\ info_SoC (info res) = Some s
    /\ info_Load (info res) = L self
    /\ info_Generation (info res) = G self
    /\ penalty_action (info res) = []
    /\ List.length (penalty_SoC (info res)) = 2%nat
    /\ (List.length (Violations_SoC (info res)) <= 2)%nat
    /\ (List.length (violations_action (info res)) <= 1)%nat.
Proof.
  intros Hs Hd. destruct self as [l0 g0 s0 t0 n]. simpl in Hs, Hd. subst.
  unfold step.
  erewrite bind_inr by (unfold modify; reflexivity).
  erewrite bind_inr by reflexivity.
  erewrite bind_inr by reflexivity.
  match goal with
  | |- context [bind (_get_action_check ?c ?x ?i) _ ?e] =>
      destruct (_get_action_check_fields c x i e)
        as (i1 & E1 & S1 & L1 & G1 & V1 & P1 & A1 & N1)
  end.
  erewrite bind_inr by exact E1. cbv beta iota.
  match goal with
  | |- context [bind (_get_SoC ?c ?x ?i) _ ?e] =>
      destruct (_get_SoC_fields c x i e s eq_refl)
        as (i2 & E2 & S2 & L2 & G2 & V2 & A2 & P2 & N2)
  end.
  erewrite bind_inr by exact E2. cbv beta iota.
  erewrite bind_inr by (unfold modify; reflexivity).
  erewrite bind_inr
    by (apply _update_generation_and_load_run with (d := d); reflexivity).
  erewrite bind_inr by reflexivity.
  erewrite bind_inr by reflexivity.
  cbv beta zeta.
  match goal with
  | |- context [bind (_get_SoC ?c ?x ?i) _ ?e] =>
      destruct (_get_SoC_fields c x i e (SoC_first cfg s a) eq_refl)
        as (i3 & E3 & S3 & L3 & G3 & V3 & A3 & P3 & N3)
  end.
  erewrite bind_inr by exact E3. cbv beta iota.
  erewrite bind_inr by (unfold modify; reflexivity).
  erewrite bind_inr by (apply _get_price_run with (d := d); reflexivity).
  erewrite bind_inr by reflexivity.
  erewrite bind_inr by (unfold modify; reflexivity).
  erewrite bind_inr
    by (eapply _get_obs_run with (d := datetime.add_hours d 1); reflexivity).
  erewrite bind_inr by reflexivity.
  do 2 eexists. split; [reflexivity |].
  cbv beta iota delta [info].
  simpl in S1, L1, G1, V1, P1, A1, N1.
  repeat apply conj.
  - rewrite S3, S2, S1. reflexivity.
  - rewrite L3, L2, L1. reflexivity.
  - rewrite G3, G2, G1. reflexivity.
  - rewrite A3, A2, A1. reflexivity.
  - rewrite P3, P2, P1. reflexivity.
  - rewrite V1 in N2. simpl in N2. lia.
  - rewrite V3, V2. exact N1.
Qed.

(** ** The reward *)

(** Imports minus exports are the net load left after the battery. *)
Lemma grid_interaction_net (x : Q) :
  fst (grid_interaction x) - snd (grid_interaction x) == x.
Proof.
  unfold grid_interaction.
  destruct (Qltb 0 x) eqn:E1; [simpl; ring |].
  destruct (Qltb x 0) eqn:E2; [simpl; ring |].
  apply Qltb_ge in E1. apply Qltb_ge in E2. simpl. lra.
Qed.

(** The reward of a [step] in closed form. *)
Lemma step_reward_run {NP : Numpy} (cfg : Config) (a : Q)
      (rest : list Q) self (s : Q) (d : datetime.t) :
  SoC self = Some s -> time self = Some d ->
  exists res self',
    step cfg (a :: rest) self = (inr res, self')
    /\ reward res
       == - (price_at cfg d
             * (net_load_at cfg d
                + actual_action (action_corrected cfg a) (net_load_at cfg d)))
          - (miu_p cfg * delta_action cfg a
             + Qsum (penalty_SoC (info res))).
Proof.
  intros Hs Hd.
  destruct (step_run cfg a rest self s d Hs Hd)
    as (res & E & _ & _ & _ & P & _ & R).
  do 2 eexists. split; [exact E |].
  set (net := net_load_at cfg d) in *.
  set (act := actual_action (action_corrected cfg a) net) in *.
  pose proof (grid_interaction_net (net + act)) as B.
  rewrite R, P. unfold Qsum. simpl.
  setoid_replace (price_at cfg d * snd (grid_interaction (net + act))
                  - price_at cfg d * fst (grid_interaction (net + act)))
    with (- (price_at cfg d
             * (fst (grid_interaction (net + act))
                - snd (grid_interaction (net + act))))) by ring.
  rewrite B. ring.
Qed.


(** The SoC violations a [step] records: one for each of its two updates
    whose proposal is outside the bounds, in that order. *)
Lemma step_SoC_violations {NP : Numpy} (cfg : Config) (a : Q)
      (rest : list Q) self (s : Q) (d : datetime.t) :
  SoC self = Some s -> time self = Some d ->
  exists res self',
    step cfg (a :: rest) self = (inr res, self')
    /\ Violations_SoC (info res) =
         (if SoC_violated cfg (SoC_proposed cfg s (action_corrected cfg a))
          then [mkViolation "SoC Violation"
                  (SoC_proposed cfg s (action_corrected cfg a))
                  (np_clip (SoC_proposed cfg s (action_corrected cfg a))
                           (SoC_min cfg) (SoC_max cfg))]
          else [])
         ++
         (if SoC_violated cfg
               (SoC_proposed cfg (SoC_first cfg s a) (residual cfg a d))
          then [mkViolation "SoC Violation"
                  (SoC_proposed cfg (SoC_first cfg s a) (residual cfg a d))
                  (np_clip
                     (SoC_proposed cfg (SoC_first cfg s a) (residual cfg a d))
                     (SoC_min cfg) (SoC_max cfg))]
          else []).
Proof.
  intros Hs Hd. destruct self as [l0 g0 s0 t0 n]. simpl in Hs, Hd. subst.
  unfold step.
  erewrite bind_inr by (unfold modify; reflexivity).
  erewrite bind_inr by reflexivity.
  erewrite bind_inr by reflexivity.
  match goal with
  | |- context [bind (_get_action_check ?c ?x ?i) _ ?e] =>
      destruct (_get_action_check_run c x i e) as (i1 & E1 & P1 & V1 & A1)
  end.
  erewrite bind_inr by exact E1. cbv beta iota.
  match goal with
  | |- context [bind (_get_SoC ?c ?x ?i) _ ?e] =>
      destruct (_get_SoC_run c x i e s eq_refl) as (i2 & E2 & P2 & A2 & V2)
  end.
  erewrite bind_inr by exact E2. cbv beta iota.
  erewrite bind_inr by (unfold modify; reflexivity).
  erewrite bind_inr
    by (apply _update_generation_and_load_run with (d := d); reflexivity).
  erewrite bind_inr by reflexivity.
  erewrite bind_inr by reflexivity.
  cbv beta zeta.
  match goal with
  | |- context [bind (_get_SoC ?c ?x ?i) _ ?e] =>
      destruct (_get_SoC_run c x i e (SoC_first cfg s a) eq_refl)
        as (i3 & E3 & P3 & A3 & V3)
  end.
  erewrite bind_inr by exact E3. cbv beta iota.
  erewrite bind_inr by (unfold modify; reflexivity).
  erewrite bind_inr by (apply _get_price_run with (d := d); reflexivity).
  erewrite bind_inr by reflexivity.
  erewrite bind_inr by (unfold modify; reflexivity).
  erewrite bind_inr
    by (eapply _get_obs_run with (d := datetime.add_hours d 1); reflexivity).
  erewrite bind_inr by reflexivity.
  do 2 eexists. split; [reflexivity |].
  cbv beta iota delta [info].
  rewrite V3, V2, V1. reflexivity.
Qed.

(** X10.  An idle step: with the request 0 inside the declared action
    space, the SoC within its bounds and a battery capacity (which the
    update law divides by) that is not zero, [step] leaves a SoC equal to
    the old one, records no violation, charges no penalty, and its reward
    is the negated price times the net load. *)
Theorem X10_step_idle {NP : Numpy} (cfg : Config) (rest : list Q) self (s : Q)
        (d : datetime.t) :
  SoC self = Some s -> time self = Some d ->
  action_space_low cfg <= 0 <= action_space_high cfg ->
  SoC_min cfg <= s <= SoC_max cfg ->
  ~ battery_capacity cfg == 0 ->
  exists res self' soc,
    step cfg (0 :: rest) self = (inr res, self')
    /\ SoC self' = Some soc
    /\ soc == s
    /\ Violations_SoC (info res) = []
    /\ violations_action (info res) = []
    /\ Qsum (penalty_SoC (info res)) == 0
    /\ reward res == - (price_at cfg d * net_load_at cfg d).
Proof.
  intros Hs Hd Ha Hb _.
  destruct (step_reward_run cfg 0 rest self s d Hs Hd)
    as (res & self' & E & R).
  destruct (step_run cfg 0 rest self s d Hs Hd)
    as (res0 & E0 & _ & _ & _ & P & A & _).
  rewrite E in E0. injection E0 as Hself Hres. subst self' res0.
  assert (Hac : action_corrected cfg 0 = 0)
    by (apply np_clip_inside; exact Ha).
  assert (Hact : forall n, actual_action 0 n = 0) by reflexivity.
  assert (H1 : SoC_min cfg <= SoC_proposed cfg s 0 <= SoC_max cfg)
    by (rewrite SoC_proposed_zero; exact Hb).
  assert (F : SoC_first cfg s 0 == s).
  { unfold SoC_first. rewrite Hac, (SoC_adjusted_inside cfg s 0 H1).
    apply SoC_proposed_zero. }
  assert (Hres : residual cfg 0 d == 0).
  { unfold residual. rewrite Hac, Hact. ring. }
  assert (Hp2 : SoC_proposed cfg (SoC_first cfg s 0) (residual cfg 0 d) == s).
  { unfold SoC_proposed, Qdiv. rewrite Hres, F. ring. }
  assert (H2 : SoC_min cfg
               <= SoC_proposed cfg (SoC_first cfg s 0) (residual cfg 0 d)
               <= SoC_max cfg)
    by (rewrite Hp2; exact Hb).
  assert (V : Violations_SoC (info res) = []).
  { destruct (step_SoC_violations cfg 0 rest self s d Hs Hd)
      as (res1 & self1 & E1 & V1).
    rewrite E in E1. injection E1 as <- _.
    assert (H1' : SoC_min cfg
                  <= SoC_proposed cfg s (action_corrected cfg 0)
                  <= SoC_max cfg) by (rewrite Hac; exact H1).
    rewrite V1.
    rewrite (proj2 (SoC_violated_false cfg _) H1').
    rewrite (proj2 (SoC_violated_false cfg _) H2). reflexivity. }
  assert (Pz : Qsum (penalty_SoC (info res)) == 0).
  { assert (H1' : SoC_min cfg
                  <= SoC_proposed cfg s (action_corrected cfg 0)
                  <= SoC_max cfg) by (rewrite Hac; exact H1).
    rewrite P. unfold Qsum. simpl.
    rewrite (SoC_penalty_inside cfg _ _ H1').
    rewrite (SoC_penalty_inside cfg _ _ H2). ring. }
  exists res. do 2 eexists. split; [exact E |].
  repeat apply conj.
  - reflexivity.
  - unfold SoC_second.
    rewrite (SoC_adjusted_inside cfg _ _ H2). exact Hp2.
  - exact V.
  - rewrite A, Hac. reflexivity.
  - exact Pz.
  - rewrite R, Pz, Hac, Hact.
    assert (Dz : delta_action cfg 0 == 0).
    { apply delta_action_zero_iff; [lra | exact Ha]. }
    rewrite Dz. ring.
Qed.

(** ** Observations and the declared observation space *)








(** ** The clock over an episode *)

Lemma add_hours_add (d : datetime.t) (a b : Z) :
  datetime.add_hours (datetime.add_hours d a) b = datetime.add_hours d (a + b).
Proof.
  unfold datetime.add_hours.
  cbn [datetime.toordinal datetime.hour datetime.minute datetime.second
       datetime.microsecond].
  f_equal.
  - Z.div_mod_to_equations. lia.
  - Z.div_mod_to_equations. lia.
Qed.

(** The clock after the [k]-th call of a run (counting from 0). *)
Lemma run_clock {NP : Numpy} (cfg : Config) (actions : list (list Q)) :
  forall self (d : datetime.t) (k : nat) r,
    actions_ok actions ->
    (exists s, SoC self = Some s) -> time self = Some d ->
    nth_error (run cfg actions self) k = Some r ->
    time (snd r) = Some (datetime.add_hours d (Z.of_nat k + 1)).
Proof.
  induction actions as [| a actions IH]; intros self d k r Hok [s Hs] Hd Hn.
  - destruct k; discriminate.
  - inversion Hok as [| a' l' Ha Hok']; subst.
    destruct a as [| a0 rest]; [contradiction |].
    destruct (step_run cfg a0 rest self s d Hs Hd) as (res & E & _).
    destruct k as [| k]; simpl in Hn.
    + injection Hn as <-. rewrite E. reflexivity.
    + rewrite E in Hn. simpl in Hn.
      match type of Hn with
      | nth_error (run _ _ ?e) _ = _ =>
          assert (Hr : exists s1, SoC e = Some s1) by (eexists; reflexivity);
          pose proof (IH e (datetime.add_hours d 1) k r Hok' Hr eq_refl Hn)
            as T
      end.
      rewrite T, add_hours_add. do 2 f_equal. lia.
Qed.

(** X13.  In an episode the clock starts at midnight of the day of the
    [reset] and the [n]-th [step] leaves it [n] hours later: at hour
    [n mod 24] of the day [n / 24] days after, with minutes, seconds and
    microseconds zero. *)
Theorem X13_episode_clock {NP : Numpy} (cfg : Config) (now : datetime.t) self0
        (actions : list (list Q)) (k : nat) r :
  actions_ok actions ->
  nth_error (run cfg actions (snd (reset cfg now self0))) k = Some r ->
  time (snd r)
  = Some (datetime.mk (datetime.toordinal now + Z.of_nat (S k) / 24)
                      (Z.of_nat (S k) mod 24) 0 0 0)
  /\ clock_left r
     = Some (datetime.minutes (datetime.replace_midnight now)
             + 60 * Z.of_nat (S k))%Z.
Proof.
  intros Hok Hn.
  destruct (reset_run cfg now self0) as (obs & i & E & _).
  rewrite E in Hn. simpl in Hn.
  match type of Hn with
  | nth_error (run _ _ ?e) _ = _ =>
      assert (Hr : exists s1, SoC e = Some s1) by (eexists; reflexivity);
      pose proof (run_clock cfg actions e (datetime.replace_midnight now) k r
                            Hok Hr eq_refl Hn) as H
  end.
  replace (Z.of_nat k + 1)%Z with (Z.of_nat (S k)) in H by lia.
  split.
  - rewrite H. reflexivity.
  - unfold clock_left. rewrite H. simpl. now rewrite add_hours_minutes.
Qed.

(** X14.  The exogenous signals repeat every 24 steps and the time encoding
    and the tariff every 168 steps: a clock reading 24 hours later has the
    same hour and minute, hence the same load and generation; one 168 hours
    later has the same weekday too, hence the same time encoding and the
    same price. *)
Theorem X14_signals_periodic {NP : Numpy} (cfg : Config) (d : datetime.t) :
  datetime.wf d ->
  load_at cfg (datetime.add_hours d 24) = load_at cfg d
  /\ generation_at cfg (datetime.add_hours d 24) = generation_at cfg d
  /\ datetime.weekday (datetime.add_hours d 24)
     = ((datetime.weekday d + 1) mod 7)%Z
  /\ time_encoding (datetime.add_hours d 168) = time_encoding d
  /\ price_at cfg (datetime.add_hours d 168) = price_at cfg d.
Proof.
  intros [Hh Hm].
  assert (H24 : datetime.add_hours d 24
                = datetime.mk (datetime.toordinal d + 1) (datetime.hour d)
                    (datetime.minute d) (datetime.second d)
                    (datetime.microsecond d)).
  { unfold datetime.add_hours. f_equal; Z.div_mod_to_equations; lia. }
  assert (H168 : datetime.add_hours d 168
                 = datetime.mk (datetime.toordinal d + 7) (datetime.hour d)
                     (datetime.minute d) (datetime.second d)
                     (datetime.microsecond d)).
  { unfold datetime.add_hours. f_equal; Z.div_mod_to_equations; lia. }
  assert (W : datetime.weekday (datetime.add_hours d 168)
              = datetime.weekday d).
  { rewrite H168. unfold datetime.weekday. simpl.
    replace (datetime.toordinal d + 7 + 6)%Z
      with (datetime.toordinal d + 6 + 1 * 7)%Z by lia.
    apply Z.mod_add. lia. }
  repeat apply conj.
  - rewrite H24. reflexivity.
  - rewrite H24. reflexivity.
  - rewrite H24. unfold datetime.weekday. simpl.
    replace (datetime.toordinal d + 1 + 6)%Z
      with (1 + (datetime.toordinal d + 6))%Z by lia.
    rewrite Z.add_mod by lia. rewrite (Z.add_comm 1). reflexivity.
  - unfold time_encoding. rewrite W. rewrite H168. reflexivity.
  - assert (Hh168 : datetime.hour (datetime.add_hours d 168)
                    = datetime.hour d) by (rewrite H168; reflexivity).
    cbv beta iota delta [price_at _get_price bind the_time ret time fst].
    rewrite W, Hh168. reflexivity.
Qed.

(** ** Calls outside an episode *)

(** X15.  Before [reset] the helpers that read the clock or the SoC raise
    and leave the attributes untouched: [_get_obs], [_get_price] and
    [_update_generation_and_load] raise [AttributeError] while the clock is
    [None], and [_get_SoC] raises [TypeError] while the SoC is [None];
    [_get_action_check] needs neither and returns. *)
Theorem X15_helpers_before_reset {NP : Numpy} (cfg : Config) (action : Q)
        (i : Info) self :
  time self = None -> SoC self = None ->
  _get_obs self = (inl AttributeError, self)
  /\ _get_price cfg self = (inl AttributeError, self)
  /\ _update_generation_and_load cfg self = (inl AttributeError, self)
  /\ _get_SoC cfg action i self = (inl TypeError, self)
  /\ exists r, _get_action_check cfg action i self = (inr r, self).
Proof.
  intros Hd Hs. repeat apply conj.
  - unfold _get_obs. apply bind_inl. unfold the_time. now rewrite Hd.
  - unfold _get_price. apply bind_inl. unfold the_time. now rewrite Hd.
  - now apply _update_generation_and_load_unset.
  - now apply _get_SoC_unset.
  - destruct (_get_action_check_run cfg action i self) as (i' & E & _).
    eexists. exact E.
Qed.

(** X16.  A [step] whose action array is empty raises [IndexError] and
    changes nothing but the step counter, which it has already incremented;
    the failed call therefore counts towards the episode length: the next
    successful call on a ready environment reports termination for the
    counter two above the one before the failed call. *)
Theorem X16_failed_step_counts {NP : Numpy} (cfg : Config) (a : Q)
        (rest : list Q) self (s : Q) (d : datetime.t) :
  SoC self = Some s -> time self = Some d ->
  step cfg [] self
  = (inl IndexError, set_current_step (current_step self + 1) self)
  /\ SoC (snd (step cfg [] self)) = SoC self
  /\ time (snd (step cfg [] self)) = time self
  /\ exists res self',
       step cfg (a :: rest) (snd (step cfg [] self)) = (inr res, self')
       /\ current_step self' = (current_step self + 2)%Z
       /\ terminated res = (max_steps cfg <=? current_step self + 2)%Z.
Proof.
  intros Hs Hd. rewrite step_empty_action.
  split; [reflexivity |]. split; [reflexivity |]. split; [reflexivity |].
  destruct (step_run cfg a rest
              (set_current_step (current_step self + 1) self) s d Hs Hd)
    as (res & E & _ & T & _).
  do 2 eexists. split; [exact E |]. simpl in *.
  split; [lia |]. rewrite T. f_equal. lia.
Qed.

(** X17.  [reset] forgets the past: whatever the attributes were (fresh,
    mid-episode or after termination), the same clock reading gives the same
    observation, the same [info] and the same attributes, with the step
    counter at 0 and empty violation and penalty lists. *)
Theorem X17_reset_forgets {NP : Numpy} (cfg : Config) (now : datetime.t)
        self self' :
  reset cfg now self = reset cfg now self'
  /\ exists obs i e,
       reset cfg now self = (inr (obs, i), e)
       /\ current_step e = 0%Z
       /\ SoC e = Some (initial_SoC cfg)
       /\ time e = Some (datetime.replace_midnight now)
       /\ i = mkInfo (Some (initial_SoC cfg))
                     (Some (load_at cfg (datetime.replace_midnight now)))
                     (Some (generation_at cfg (datetime.replace_midnight now)))
                     [] [] [] [].
Proof.
  split; [reflexivity |].
  do 3 eexists. split; [reflexivity |]. repeat split.
Qed.

(** Clipping a clipped value changes nothing, whatever the bounds. *)
Lemma np_clip_idempotent (x lo hi : Q) :
  np_clip (np_clip x lo hi) lo hi = np_clip x lo hi.
Proof.
  destruct (Qlt_le_dec hi lo) as [H | H].
  - assert (E : forall y, np_clip y lo hi = hi).
    { intro y. unfold np_clip. apply Qmin_r_gt.
      destruct (Qlt_le_dec y lo) as [H1 | H1].
      - now rewrite Qmax_r_lt.
      - rewrite Qmax_l_ge by assumption. lra. }
    now rewrite !E.
  - apply np_clip_inside. now apply np_clip_bounds.
Qed.

(** X18.  Correcting twice changes nothing: [_get_action_check] applied to
    an action it has already corrected returns that action with a zero
    penalty and records no violation. *)
Theorem X18_action_check_idempotent {NP : Numpy} (cfg : Config) (a : Q)
        (i : Info) self :
  a_min cfg <= a_max cfg ->
  exists ac pen i1 pen' i2,
    _get_action_check cfg a i self = (inr (ac, pen, i1), self)
    /\ _get_action_check cfg ac i1 self = (inr (ac, pen', i2), self)
    /\ pen' == 0
    /\ violations_action i2 = violations_action i1.
Proof.
  intros _.
  destruct (_get_action_check_run cfg a i self) as (i1 & E1 & _).
  destruct (_get_action_check_run cfg (action_corrected cfg a) i1 self)
    as (i2 & E2 & _ & _ & A2).
  assert (Hid : action_corrected cfg (action_corrected cfg a)
                = action_corrected cfg a)
    by apply np_clip_idempotent.
  assert (Dz : delta_action cfg (action_corrected cfg a) == 0).
  { unfold delta_action. fold (action_corrected cfg (action_corrected cfg a)).
    rewrite Hid.
    setoid_replace (action_corrected cfg a - action_corrected cfg a) with 0
      by ring.
    reflexivity. }
  rewrite Hid in E2, A2.
  do 5 eexists. split; [exact E1 |]. split; [exact E2 |]. split.
  - rewrite Dz. ring.
  - rewrite A2, Qeq_bool_refl. apply app_nil_r.
Qed.

(** * The further properties on concrete inputs *)

(** X2: a request to charge 0.5 with a surplus of 0.25. *)
Lemma X2_witness :
  0 < 0.5
  /\ actual_action 0.5 (-0.25) == Qmin 0.5 (Qmax 0 (- (-0.25)))
  /\ actual_action 0.5 (-0.25) <= Qmax 0 (- (-0.25)).
Proof.
  assert (H : 0 < 0.5) by reflexivity.
  split; [exact H |].
  destruct (X2_actual_action_charge 0.5 (-0.25) H) as (E & _ & B & _).
  split; assumption.
Defined.

(** X3: a request to discharge 0.5 with a deficit of 0.25. *)
Lemma X3_witness :
  -0.5 < 0 /\ 0 <= 0.25
  /\ -0.5 <= actual_action (-0.5) 0.25 <= 0
  /\ - actual_action (-0.5) 0.25 <= 0.25.
Proof.
  assert (H1 : -0.5 < 0) by reflexivity.
  assert (H2 : 0 <= 0.25) by discriminate.
  split; [exact H1 |]. split; [exact H2 |].
  destruct (X3_actual_action_discharge_within_deficit (-0.5) 0.25 H1 H2)
    as (B & D & _).
  split; assumption.
Defined.

(** X4: from SoC 0.5 the action 8 proposes 1.22, clamped to 0.95. *)
Lemma X4_witness :
  SoC ready_env = Some 0.5
  /\ SoC_min default_config <= SoC_max default_config
  /\ SoC_max default_config < SoC_proposed default_config 0.5 8
  /\ exists soc pen i',
       _get_SoC default_config 8 empty_info ready_env
       = (inr (soc, pen, i'), set_SoC soc ready_env)
       /\ soc = SoC_max default_config.
Proof.
  assert (Hb : SoC_min default_config <= SoC_max default_config)
    by (vm_compute; discriminate).
  assert (Hv : SoC_max default_config < SoC_proposed default_config 0.5 8)
    by (vm_compute; reflexivity).
  split; [reflexivity |]. split; [exact Hb |]. split; [exact Hv |].
  destruct (X4_get_SoC_clamp_cases default_config 8 empty_info ready_env 0.5
              eq_refl Hb)
    as (soc & pen & i' & E & _ & _ & C & _).
  exists soc, pen, i'. split; [exact E |]. exact (proj1 (C Hv)).
Defined.


(** X6: the actions -1 and 1 from SoC 0.5. *)
Lemma X6_witness :
  SoC ready_env = Some 0.5
  /\ SoC_min default_config <= SoC_max default_config
  /\ 0 < eta default_config
  /\ 0 < battery_capacity default_config
  /\ 0 <= time_interval default_config
  /\ -1 <= 1
  /\ exists soc_x pen_x ix soc_y pen_y iy,
       _get_SoC default_config (-1) empty_info ready_env
       = (inr (soc_x, pen_x, ix), set_SoC soc_x ready_env)
       /\ _get_SoC default_config 1 empty_info ready_env
          = (inr (soc_y, pen_y, iy), set_SoC soc_y ready_env)
       /\ soc_x <= soc_y.
Proof.
  assert (Hb : SoC_min default_config <= SoC_max default_config)
    by (vm_compute; discriminate).
  assert (He : 0 < eta default_config) by reflexivity.
  assert (Hc : 0 < battery_capacity default_config) by reflexivity.
  assert (Ht : 0 <= time_interval default_config) by discriminate.
  assert (Hxy : -1 <= 1) by discriminate.
  repeat (split; [assumption || reflexivity |]).
  exact (X6_get_SoC_monotone default_config (-1) 1 empty_info ready_env 0.5
           eq_refl Hb He Hc Ht Hxy).
Defined.

(** X7: a step in mid-episode. *)
Lemma X7_witness :
  SoC ready_env = Some 0.5 /\ time ready_env = Some monday_morning
  /\ exists res self',
       @step numpy_approx default_config [2] ready_env = (inr res, self')
       /\ info_SoC (info res) = Some 0.5
       /\ info_Load (info res) = Some 0.25
       /\ penalty_action (info res) = [].
Proof.
  split; [reflexivity |]. split; [reflexivity |].
  destruct (@X7_step_info_snapshot numpy_approx default_config 2 [] ready_env
              0.5 monday_morning eq_refl eq_refl)
    as (res & self' & E & S & L0 & _ & P & _).
  exists res, self'. repeat apply conj; assumption.
Defined.


(** X10: an idle step in mid-episode. *)
Lemma X10_witness :
  SoC ready_env = Some 0.5 /\ time ready_env = Some monday_morning
  /\ @action_space_low numpy_approx default_config <= 0
     <= @action_space_high numpy_approx default_config
  /\ SoC_min default_config <= 0.5 <= SoC_max default_config
  /\ ~ battery_capacity default_config == 0
  /\ exists res self' soc,
       @step numpy_approx default_config [0] ready_env = (inr res, self')
       /\ SoC self' = Some soc
       /\ soc == 0.5.
Proof.
  assert (Ha : @action_space_low numpy_approx default_config <= 0
               <= @action_space_high numpy_approx default_config)
    by (split; vm_compute; discriminate).
  assert (Hb : SoC_min default_config <= 0.5 <= SoC_max default_config)
    by (split; vm_compute; discriminate).
  assert (Hc : ~ battery_capacity default_config == 0)
    by (vm_compute; discriminate).
  split; [reflexivity |]. split; [reflexivity |].
  split; [exact Ha |]. split; [exact Hb |]. split; [exact Hc |].
  destruct (@X10_step_idle numpy_approx default_config [] ready_env 0.5
              monday_morning eq_refl eq_refl Ha Hb Hc)
    as (res & self' & soc & E & S & Q0 & _).
  exists res, self', soc. repeat apply conj; assumption.
Defined.


(** X13: the second step of an episode leaves the clock at 02:00. *)
Lemma X13_witness :
  actions_ok [[0]; [0]]
  /\ exists r,
       nth_error (@run numpy_approx default_config [[0]; [0]]
                    (snd (@reset numpy_approx default_config monday_morning
                            __init__))) 1
       = Some r
       /\ time (snd r)
          = Some (datetime.mk
                    (datetime.toordinal monday_morning + Z.of_nat 2 / 24)
                    (Z.of_nat 2 mod 24) 0 0 0).
Proof.
  assert (Hok : actions_ok [[0]; [0]]) by (repeat constructor; discriminate).
  split; [exact Hok |].
  eexists. split; [reflexivity |].
  exact (proj1 (@X13_episode_clock numpy_approx default_config monday_morning
                  __init__ [[0]; [0]] 1%nat _ Hok eq_refl)).
Defined.

(** X14: Monday 09:30 and the load a day later. *)
Lemma X14_witness :
  datetime.wf monday_morning
  /\ @load_at numpy_approx default_config
       (datetime.add_hours monday_morning 24)
     = @load_at numpy_approx default_config monday_morning.
Proof.
  assert (H : datetime.wf monday_morning)
    by (vm_compute; repeat split; discriminate || reflexivity).
  split; [exact H |].
  exact (proj1 (@X14_signals_periodic numpy_approx default_config
                  monday_morning H)).
Defined.

(** X15: the helpers on the environment just constructed. *)
Lemma X15_witness :
  time __init__ = None /\ SoC __init__ = None
  /\ @_get_obs numpy_approx __init__ = (inl AttributeError, __init__).
Proof.
  split; [reflexivity |]. split; [reflexivity |].
  exact (proj1 (@X15_helpers_before_reset numpy_approx default_config 0
                  empty_info __init__ eq_refl eq_refl)).
Defined.

(** X16: an empty action array in mid-episode. *)
Lemma X16_witness :
  SoC ready_env = Some 0.5 /\ time ready_env = Some monday_morning
  /\ @step numpy_approx default_config [] ready_env
     = (inl IndexError,
        set_current_step (current_step ready_env + 1) ready_env).
Proof.
  split; [reflexivity |]. split; [reflexivity |].
  exact (proj1 (@X16_failed_step_counts numpy_approx default_config 0 []
                  ready_env 0.5 monday_morning eq_refl eq_refl)).
Defined.

(** X18: the request 1.5 corrected twice. *)
Lemma X18_witness :
  a_min default_config <= a_max default_config
  /\ exists ac pen i1 pen' i2,
       @_get_action_check numpy_approx default_config 1.5 empty_info
         ready_env
       = (inr (ac, pen, i1), ready_env)
       /\ @_get_action_check numpy_approx default_config ac i1 ready_env
          = (inr (ac, pen', i2), ready_env)
       /\ pen' == 0
       /\ violations_action i2 = violations_action i1.
Proof.
  assert (H : a_min default_config <= a_max default_config)
    by (vm_compute; discriminate).
  split; [exact H |].
  exact (@X18_action_check_idempotent numpy_approx default_config 1.5
           empty_info ready_env H).
Defined.


(** ** A discharge request during a surplus *)

(** X19.  With a discharge request while generation exceeds load, the
    energy-balance branch of [step] realises a charge of the whole surplus,
    whatever the size of the request, so that nothing is left for the grid:
    neither import nor export. *)
Theorem X19_discharge_request_absorbs_surplus (a_c net : Q) :
  a_c < 0 -> net < 0 ->
  actual_action a_c net = - net
  /\ 0 < actual_action a_c net
  /\ fst (grid_interaction (net + actual_action a_c net)) == 0
  /\ snd (grid_interaction (net + actual_action a_c net)) == 0.
Proof.
  intros Ha Hn.
  destruct (actual_action_discharge_surplus a_c net Ha Hn) as [E P].
  split; [exact E |]. split; [exact P |].
  rewrite E. unfold grid_interaction.
  assert (Z1 : Qltb 0 (net + - net) = false) by (apply Qltb_ge; lra).
  assert (Z2 : Qltb (net + - net) 0 = false) by (apply Qltb_ge; lra).
  rewrite Z1, Z2. split; reflexivity.
Qed.

(** X19: a request to discharge 0.1 with a surplus of 0.9. *)
Lemma X19_witness :
  -0.1 < 0 /\ -0.9 < 0 /\ actual_action (-0.1) (-0.9) = - (-0.9).
Proof.
  assert (H1 : -0.1 < 0) by reflexivity.
  assert (H2 : -0.9 < 0) by reflexivity.
  split; [exact H1 |]. split; [exact H2 |].
  exact (proj1 (X19_discharge_request_absorbs_surplus (-0.1) (-0.9) H1 H2)).
Defined.
